(** * muon/_atac/plot.py : the key resolver [_average_peaks]

    A shallow embedding of the resolver that turns plotting keys into
    columns of a derived table, and the properties of it that the
    specification states.

    Modelling choices.
    - Matrix entries are exact rationals ([Q]); the rounding of numpy's
      floating-point mean is not modelled.  A mean is kept in lowest terms.
    - The annotated matrix is a record holding what the resolver reads:
      [obs_names], the column names of [obs], [var_names], the matrix [X]
      (a list of rows, one per observation), the optional [raw] matrix and
      the [uns] entry ['atac'].
    - The local variables [x], [attr_names] and [tmp_names], the stream of
      emitted warnings, and a log of every evaluation of [.X.mean(axis=1)]
      form the state threaded by a small state-and-exception monad.  The
      warnings and the log survive a raise, as the side effects they are.
    - [average] and [use_raw] are dynamically typed in the source ([None],
      [False], [-1], a string), hence the type [pyval]. *)

From Stdlib Require Import List String Ascii Bool Arith ZArith QArith Lia.
From Stdlib Require Import DecimalString.
Import ListNotations.

Local Close Scope Q_scope.
Local Open Scope string_scope.
Local Open Scope list_scope.

(** ** Python values reaching [average] and [use_raw] *)

Inductive pyval : Type :=
| PyNone
| PyBool (b : bool)
| PyInt (n : Z)
| PyStr (s : string).

(** [if v:] *)
Definition truthy (v : pyval) : bool :=
  match v with
  | PyNone => false
  | PyBool b => b
  | PyInt n => negb (Z.eqb n 0)
  | PyStr s => negb (String.eqb s "")
  end.

(** [v == 'lit'] for a string literal *)
Definition py_eq_str (v : pyval) (lit : string) : bool :=
  match v with
  | PyStr s => String.eqb s lit
  | _ => false
  end.

(** [v != n] for an integer literal; [True] and [False] compare as 1 and 0 *)
Definition py_ne_int (v : pyval) (n : Z) : bool :=
  match v with
  | PyInt m => negb (Z.eqb m n)
  | PyBool b => negb (Z.eqb (if b then 1 else 0) n)
  | _ => true
  end.

(** [v is not None] *)
Definition py_is_not_None (v : pyval) : bool :=
  match v with PyNone => false | _ => true end.

(** [v is not False] *)
Definition py_is_not_False (v : pyval) : bool :=
  match v with PyBool false => false | _ => true end.

(** [f"{v}"] *)
Definition py_str (v : pyval) : string :=
  match v with
  | PyNone => "None"
  | PyBool true => "True"
  | PyBool false => "False"
  | PyInt n => NilZero.string_of_int (Z.to_int n)
  | PyStr s => s
  end.

(** ** The annotated matrix *)

Record annotation_row : Type := mkRow {
  gene : string;        (* the index label of the row *)
  peak : string;
  peak_type : string
}.

Record Raw : Type := mkRaw {
  raw_var_names : list string;
  raw_X : list (list Q)
}.

Record AnnData : Type := mkAnnData {
  obs_names : list string;
  obs_columns : list string;                 (* adata.obs.columns *)
  var_names : list string;
  X : list (list Q);                         (* one row per observation *)
  raw : option Raw;                          (* adata.raw, possibly None *)
  uns_atac : option (option (list annotation_row))
    (* None: no 'atac' in uns; Some None: no 'peak_annotation' in uns['atac'] *)
}.

(** [name in index] *)
Definition contains (index : list string) (name : string) : bool :=
  existsb (String.eqb name) index.

Fixpoint index_of (name : string) (index : list string) : option nat :=
  match index with
  | [] => None
  | n :: rest =>
      if String.eqb name n then Some 0%nat
      else option_map S (index_of name rest)
  end.

(** ** Exceptions and the resolver monad *)

Inductive exception : Type :=
| KeyError (msg : string)
    (* raised by the resolver itself, with its own message *)
| KeyError_loc (label : string)
    (* pandas: [.loc[[label]]] finds no row with that label *)
| KeyError_index (not_found : list string)
    (* anndata: a column selection names features the matrix does not have *)
| TypeError_None_subscript.
    (* [adata.raw[...]] when [adata.raw] is [None] *)

(** The lookup failures are the exceptions of class [KeyError]. *)
Definition is_lookup_failure (e : exception) : bool :=
  match e with
  | TypeError_None_subscript => false
  | _ => true
  end.

Inductive result (A : Type) : Type :=
| Ok (a : A)
| Raise (e : exception).
Arguments Ok {A} a.
Arguments Raise {A} e.

Definition DataFrame : Type := list (string * list Q).

Record state : Type := mkState {
  x : DataFrame;                             (* the derived table *)
  attr_names : list string;
  tmp_names : list string;
  warnings : list string;                    (* warnings.warn, in order *)
  mean_log : list (string * list string)
    (* one entry per evaluated mean: column name and peak subset *)
}.

Definition M (A : Type) : Type := state -> state * result A.

Definition ret {A} (a : A) : M A := fun st => (st, Ok a).

Definition bind {A B} (c : M A) (k : A -> M B) : M B :=
  fun st =>
    match c st with
    | (st', Ok a) => k a st'
    | (st', Raise e) => (st', Raise e)
    end.

Declare Scope resolver_scope.
Delimit Scope resolver_scope with resolver.
Notation "v <- c ;; k" := (bind c (fun v => k))
  (at level 61, c at next level, right associativity) : resolver_scope.
Notation "c ;; k" := (bind c (fun _ => k))
  (at level 61, right associativity) : resolver_scope.
Local Open Scope resolver_scope.

Definition raise {A} (e : exception) : M A := fun st => (st, Raise e).

Definition lift {A} (r : result A) : M A := fun st => (st, r).

Definition warn (msg : string) : M unit :=
  fun st => (mkState (x st) (attr_names st) (tmp_names st)
                     (warnings st ++ [msg]) (mean_log st), Ok tt).

Definition attr_names_append (name : string) : M unit :=
  fun st => (mkState (x st) (attr_names st ++ [name]) (tmp_names st)
                     (warnings st) (mean_log st), Ok tt).

Definition attr_names_extend (names : list string) : M unit :=
  fun st => (mkState (x st) (attr_names st ++ names) (tmp_names st)
                     (warnings st) (mean_log st), Ok tt).

Definition tmp_names_append (name : string) : M unit :=
  fun st => (mkState (x st) (attr_names st) (tmp_names st ++ [name])
                     (warnings st) (mean_log st), Ok tt).

Definition log_mean (name : string) (p : list string) : M unit :=
  fun st => (mkState (x st) (attr_names st) (tmp_names st)
                     (warnings st) (mean_log st ++ [(name, p)]), Ok tt).

(** [df[name] = values]: overwrite the column in place, or add it last *)
Fixpoint df_set (df : DataFrame) (name : string) (values : list Q) : DataFrame :=
  match df with
  | [] => [(name, values)]
  | (n, v) :: rest =>
      if String.eqb name n then (n, values) :: rest
      else (n, v) :: df_set rest name values
  end.

Fixpoint df_get (df : DataFrame) (name : string) : option (list Q) :=
  match df with
  | [] => None
  | (n, v) :: rest => if String.eqb name n then Some v else df_get rest name
  end.

Definition columns (df : DataFrame) : list string := map fst df.

Definition x_set (name : string) (values : list Q) : M unit :=
  fun st => (mkState (df_set (x st) name values) (attr_names st) (tmp_names st)
                     (warnings st) (mean_log st), Ok tt).

(** [for a in l: body(a)] *)
Fixpoint for_each {A} (l : list A) (body : A -> M unit) : M unit :=
  match l with
  | [] => ret tt
  | a :: rest => body a ;; for_each rest body
  end.

(** ** Matrix operations *)

(** [m[:, labels].X]: the columns named by [labels], in that order *)
Definition select_columns (names : list string) (m : list (list Q))
           (labels : list string) : result (list (list Q)) :=
  match filter (fun l => negb (contains names l)) labels with
  | [] =>
      Ok (map (fun row =>
                 map (fun l => match index_of l names with
                               | Some i => nth i row 0%Q
                               | None => 0%Q
                               end) labels) m)
  | not_found => Raise (KeyError_index not_found)
  end.

Definition Qsum (l : list Q) : Q := fold_right Qplus 0%Q l.

Definition mean (l : list Q) : Q :=
  Qred (Qsum l / inject_Z (Z.of_nat (List.length l)))%Q.

(** [.mean(axis=1)], flattened to one value per observation *)
Definition mean_axis1 (m : list (list Q)) : list Q := map mean m.

(** ** Pandas operations on the annotation table *)

(** [table.loc[[key]]]: every row labelled [key], or a [KeyError] *)
Definition loc (table : list annotation_row) (key : string)
  : result (list annotation_row) :=
  match filter (fun r => String.eqb (gene r) key) table with
  | [] => Raise (KeyError_loc key)
  | rows => Ok rows
  end.

(** [peak_dict[k].append(v)] on a [defaultdict(list)], which keeps the
    order in which its keys were first inserted *)
Fixpoint dict_append (d : list (string * list string)) (k v : string)
  : list (string * list string) :=
  match d with
  | [] => [(k, [v])]
  | (k', vs) :: rest =>
      if String.eqb k k' then (k', vs ++ [v]) :: rest
      else (k', vs) :: dict_append rest k v
  end.

(** ** The messages *)

Definition no_annotation_message (key : string) : string :=
  "There is no feature or feature annotation " ++ key ++
  ". If it is a gene name, load peak annotation with muon.atac.pp.add_peak_annotation first.".

Definition peaks_not_found_message (key : string) : string :=
  "Peaks for " ++ key ++ " are not found.".

Definition not_recognised_message (average : pyval) : string :=
  "Plotting individual peaks since " ++ py_str average ++
  " was not recognised. Try using 'total' or 'peak_type'.".

(** ** [_average_peaks] *)

Section Resolver.

Variable adata : AnnData.
Variable average : pyval.
Variable use_raw : pyval.

(** The matrix columns [p] averaged per observation: [adata.raw[:,p]] when
    [use_raw] is truthy, [adata[:,p]] otherwise. *)
Definition averaged (p : list string) : result (list Q) :=
  if truthy use_raw then
    match raw adata with
    | None => Raise TypeError_None_subscript
    | Some r =>
        match select_columns (raw_var_names r) (raw_X r) p with
        | Ok sub => Ok (mean_axis1 sub)
        | Raise e => Raise e
        end
    end
  else
    match select_columns (var_names adata) (X adata) p with
    | Ok sub => Ok (mean_axis1 sub)
    | Raise e => Raise e
    end.

(** Lines 40-44 and 60-64:
    [if attr_name not in adata.obs.columns: x[attr_name] = ...mean(axis=1)] *)
Definition assign_mean (attr_name : string) (p : list string) : M unit :=
  if negb (contains (obs_columns adata) attr_name) then
    values <- lift (averaged p) ;;
    log_mean attr_name p ;;
    x_set attr_name values
  else ret tt.

Definition all_peaks_name (key : string) : string := key ++ " (all peaks)".

Definition peak_type_name (key t : string) : string :=
  key ++ " (" ++ t ++ " peaks)".

(** Lines 50-52 *)
Definition peak_dict_of (peak_types peaks : list string)
  : list (string * list string) :=
  fold_left (fun d kv => dict_append d (fst kv) (snd kv))
            (combine peak_types peaks) [].

(** Lines 29-70: what is done with the annotation rows of [key] that
    survived the filter on [var_names]. *)
Definition aggregate (key : string) (peak_sel : list annotation_row) : M unit :=
  let peaks := map peak peak_sel in
  if Nat.eqb (List.length peaks) 0 then
    warn (peaks_not_found_message key)
  else if py_eq_str average "total" || py_eq_str average "all" then
    let attr_name := all_peaks_name key in
    attr_names_append attr_name ;;
    tmp_names_append attr_name ;;
    assign_mean attr_name peaks
  else if py_eq_str average "peak_type" then
    let peak_types := map peak_type peak_sel in
    let peak_dict := peak_dict_of peak_types peaks in
    for_each peak_dict (fun tp =>
      let attr_name := peak_type_name key (fst tp) in
      attr_names_append attr_name ;;
      tmp_names_append attr_name ;;
      assign_mean attr_name (snd tp))
  else
    (if py_is_not_None average && py_is_not_False average
        && py_ne_int average (-1)
     then warn (not_recognised_message average)
     else ret tt) ;;
    attr_names_extend peaks.

(** The body of the loop over [keys], lines 21-73. *)
Definition process_key (key : string) : M unit :=
  if negb (contains (obs_names adata) key)
     && negb (contains (obs_columns adata) key) then
    match uns_atac adata with
    | Some (Some peak_annotation) =>
        peak_sel <- lift (loc peak_annotation key) ;;
        aggregate key
          (filter (fun r => contains (var_names adata) (peak r)) peak_sel)
    | _ => raise (KeyError (no_annotation_message key))
    end
  else attr_names_append key.

Definition run_keys (keys : list string) : M unit :=
  for_each keys process_key.

Definition init_state : state := mkState [] [] [] [] [].

(** The call: the final state, and the returned triple
    [(x, attr_names, tmp_names)] unless an exception escaped. *)
Definition _average_peaks (keys : list string)
  : state * result (DataFrame * list string * list string) :=
  (run_keys keys ;;
   fun st => (st, Ok (x st, attr_names st, tmp_names st))) init_state.

End Resolver.

Arguments all_peaks_name key /.
Arguments peak_type_name key t /.

(** ** Words of the specification *)

(** A key is matched directly when it is an observation id or an [obs] column. *)
Definition is_direct (adata : AnnData) (key : string) : bool :=
  contains (obs_names adata) key || contains (obs_columns adata) key.

(** The annotation rows linked to a gene. *)
Definition linked (table : list annotation_row) (key : string)
  : list annotation_row :=
  filter (fun r => String.eqb (gene r) key) table.

(** The linked rows whose peak is on the feature axis of the matrix. *)
Definition matched (adata : AnnData) (table : list annotation_row)
           (key : string) : list annotation_row :=
  filter (fun r => contains (var_names adata) (peak r)) (linked table key).

Definition matched_peaks (adata : AnnData) (table : list annotation_row)
           (key : string) : list string :=
  map peak (matched adata table key).

(** The distinct elements of a list, in the order of their first occurrence. *)
Definition first_seen (l : list string) : list string :=
  fold_left (fun acc a => if contains acc a then acc else acc ++ [a]) l [].

(** The peaks of the rows carrying the label [t]. *)
Definition peaks_of_type (rows : list annotation_row) (t : string)
  : list string :=
  map peak (filter (fun r => String.eqb (peak_type r) t) rows).

(** The value of feature [p] for the [i]-th observation. *)
Definition value_at (names : list string) (m : list (list Q))
           (i : nat) (p : string) : Q :=
  match index_of p names with
  | Some j => nth j (nth i m []) 0%Q
  | None => 0%Q
  end.

(** For each observation, in the order of the matrix, the mean over the
    features [ps] of its values. *)
Definition row_wise_mean (names : list string) (m : list (list Q))
           (ps : list string) : list Q :=
  map (fun i => mean (map (value_at names m i) ps)) (seq 0 (List.length m)).

(** The matrix an aggregation reads: the raw one when [use_raw] is truthy. *)
Definition read_matrix (adata : AnnData) (use_raw : pyval)
  : option (list string * list (list Q)) :=
  if truthy use_raw then
    option_map (fun r => (raw_var_names r, raw_X r)) (raw adata)
  else Some (var_names adata, X adata).

(** Every feature of [ps] is on the feature axis of the matrix read. *)
Definition readable (adata : AnnData) (use_raw : pyval) (ps : list string)
  : Prop :=
  exists names m,
    read_matrix adata use_raw = Some (names, m) /\ incl ps names.

(** The table has exactly one column [name], holding the row-wise mean over
    [ps] of the matrix read. *)
Definition mean_column (adata : AnnData) (use_raw : pyval) (df : DataFrame)
           (name : string) (ps : list string) : Prop :=
  count_occ string_dec (columns df) name = 1%nat /\
  exists names m,
    read_matrix adata use_raw = Some (names, m) /\
    df_get df name = Some (row_wise_mean names m ps).

(** The shape invariant of an annotated matrix: one row per observation,
    in the raw matrix too. *)
Definition well_shaped (adata : AnnData) : Prop :=
  List.length (X adata) = List.length (obs_names adata) /\
  forall r, raw adata = Some r ->
            List.length (raw_X r) = List.length (obs_names adata).

(** ** States and outcomes *)

(** The states a key can lead to. *)
Definition listed (st : state) (names : list string) : state :=
  mkState (x st) (attr_names st ++ names) (tmp_names st)
          (warnings st) (mean_log st).

Definition warned (st : state) (msg : string) : state :=
  mkState (x st) (attr_names st) (tmp_names st)
          (warnings st ++ [msg]) (mean_log st).

Definition announced (st : state) (name : string) : state :=
  mkState (x st) (attr_names st ++ [name]) (tmp_names st ++ [name])
          (warnings st) (mean_log st).

Definition derived (st : state) (name : string) (p : list string)
           (v : list Q) : state :=
  mkState (df_set (x st) name v) (attr_names st ++ [name])
          (tmp_names st ++ [name]) (warnings st)
          (mean_log st ++ [(name, p)]).

Section Outcome.

Variable adata : AnnData.
Variable average : pyval.
Variable use_raw : pyval.

(** A run of appends and assignments, one per derived column. *)
Definition derive_all (cols : list (string * list string)) : M unit :=
  for_each cols (fun np =>
    attr_names_append (fst np) ;;
    tmp_names_append (fst np) ;;
    assign_mean adata use_raw (fst np) (snd np)).

(** Under the modes "total" and "all", a derived column is named after a
    key and averages the matched peaks of that key. *)
Definition total_origin (np : string * list string) : Prop :=
  average = PyStr "total" \/ average = PyStr "all" ->
  exists key table,
    uns_atac adata = Some (Some table) /\
    np = (all_peaks_name key, matched_peaks adata table key).

Inductive key_outcome (st : state) : state * result unit -> Prop :=
| ko_listed (names : list string) :
    key_outcome st (listed st names, Ok tt)
| ko_warned (msg : string) :
    key_outcome st (warned st msg, Ok tt)
| ko_warned_listed (msg : string) (names : list string) :
    key_outcome st (listed (warned st msg) names, Ok tt)
| ko_lookup_failure (e : exception) :
    is_lookup_failure e = true ->
    key_outcome st (st, Raise e)
| ko_derived (cols : list (string * list string)) :
    Forall (fun np => snd np <> [] /\ total_origin np) cols ->
    key_outcome st (derive_all cols st).

(** What the loop maintains between two keys. *)
Definition bookkeeping (st : state) : Prop :=
  NoDup (columns (x st)) /\
  (forall n, count_occ string_dec (tmp_names st) n
             <= count_occ string_dec (attr_names st) n) /\
  (forall n, In n (obs_columns adata) ->
             count_occ string_dec (map fst (mean_log st)) n = 0%nat) /\
  (forall n, ~ In n (obs_columns adata) ->
             count_occ string_dec (map fst (mean_log st)) n =
             count_occ string_dec (tmp_names st) n) /\
  (forall n, In n (columns (x st)) <->
             In n (tmp_names st) /\ ~ In n (obs_columns adata)).

(** Every mean was taken over at least one column, and every column of the
    derived table is the result of one of the means taken. *)
Definition means_sound (st : state) : Prop :=
  Forall (fun entry => snd entry <> []) (mean_log st) /\
  forall name values,
    In (name, values) (x st) ->
    exists p, In (name, p) (mean_log st) /\
              averaged adata use_raw p = Ok values.

End Outcome.

(** The matrix with another raw matrix. *)
Definition with_raw (adata : AnnData) (r : option Raw) : AnnData :=
  mkAnnData (obs_names adata) (obs_columns adata) (var_names adata)
            (X adata) r (uns_atac adata).

(** ** What a call yields, key by key *)



(** Under "total" and "all": the display names, the new names and the
    warnings one key contributes. *)
Definition total_display (adata : AnnData) (table : list annotation_row)
           (key : string) : list string :=
  if is_direct adata key then [key]
  else match matched_peaks adata table key with
       | [] => []
       | _ => [all_peaks_name key]
       end.

Definition total_new (adata : AnnData) (table : list annotation_row)
           (key : string) : list string :=
  if is_direct adata key then []
  else match matched_peaks adata table key with
       | [] => []
       | _ => [all_peaks_name key]
       end.

Definition total_warnings (adata : AnnData) (table : list annotation_row)
           (key : string) : list string :=
  if is_direct adata key then []
  else match matched_peaks adata table key with
       | [] => [peaks_not_found_message key]
       | _ => []
       end.




(** The modes that aggregate. *)
Definition aggregating (average : pyval) : bool :=
  py_eq_str average "total" || py_eq_str average "all"
  || py_eq_str average "peak_type".

(** ** The plot dispatchers [embedding] and [dotplot] *)

(** The [data] argument: an [AnnData], a [MuData] with its dictionary of
    modalities, or anything else. *)
Inductive pydata : Type :=
| PyAnnData (adata : AnnData)
| PyMuData (mods : list (string * AnnData))   (* data.mod *)
| PyOtherData.

(** A [color] or [var_names] argument: [None], a string, an iterable with
    the strings it yields (for a mapping, its keys), or anything else. *)
Inductive pykeys : Type :=
| KeysNone
| KeysStr (s : string)
| KeysIterable (items : list string)
| KeysOther.

Inductive dispatch_exception : Type :=
| TypeError (msg : string)
| KeyError_mod (name : string)
    (* [data.mod[name]] without that modality *)
| Raised_by_resolver (e : exception).

(** What is handed to scanpy: the matrix itself, or [AnnData(x, obs=...)]
    built on the derived table, with the [obs] of the source and, for
    [embedding], its [obsm]. *)
Inductive plot_target : Type :=
| Original (adata : AnnData)
| Transient (table : DataFrame) (source : AnnData) (with_obsm : bool).

Definition kwargs_t : Type := list (string * pyval).

Inductive plot_call : Type :=
| sc_pl_embedding (target : plot_target) (basis : string)
                  (color : option (list string)) (use_raw : option pyval)
                  (kwargs : kwargs_t)
| sc_pl_dotplot (target : plot_target) (var_names : list string)
                (groupby : option string) (use_raw : pyval)
                (kwargs : kwargs_t).

(** What the dispatcher returns: [None], or what scanpy returned. *)
Inductive returned : Type :=
| ReturnsNone
| ReturnsPlot.

Inductive dispatched : Type :=
| Dispatch_raised (e : dispatch_exception)
| Dispatch_plotted (call : plot_call) (ret : returned).

(** [d[name]] on a dictionary *)
Fixpoint dict_get {V} (d : list (string * V)) (name : string) : option V :=
  match d with
  | [] => None
  | (k, v) :: rest => if String.eqb name k then Some v else dict_get rest name
  end.

(** Lines 88-93 and 162-167 *)
Definition atac_modality (data : pydata) : dispatch_exception + AnnData :=
  match data with
  | PyAnnData adata => inr adata
  | PyMuData mods =>
      match dict_get mods "atac" with
      | Some adata => inr adata
      | None => inl (KeyError_mod "atac")
      end
  | PyOtherData =>
      inl (TypeError "Expected AnnData or MuData object with 'atac' modality")
  end.

(** [embedding]: the warnings emitted, and what was raised or plotted. *)
Definition embedding (data : pydata) (basis : string) (color : pykeys)
           (average use_raw : pyval) (kwargs : kwargs_t)
  : list string * dispatched :=
  match atac_modality data with
  | inl e => ([], Dispatch_raised e)
  | inr adata =>
      let resolve keys :=
        match _average_peaks adata average use_raw keys with
        | (st, Ok (x, attr_names, _)) =>
            (warnings st,
             Dispatch_plotted
               (sc_pl_embedding (Transient x adata true) basis
                                (Some attr_names) None kwargs)
               ReturnsNone)
        | (st, Raise e) => (warnings st, Dispatch_raised (Raised_by_resolver e))
        end in
      match color with
      | KeysNone =>
          ([], Dispatch_plotted
                 (sc_pl_embedding (Original adata) basis None (Some use_raw)
                                  kwargs)
                 ReturnsPlot)
      | KeysStr s => resolve [s]
      | KeysIterable items => resolve items
      | KeysOther =>
          ([], Dispatch_raised
                 (TypeError "Expected color to be a string or an iterable."))
      end
  end.

(** [dotplot] *)
Definition dotplot (data : pydata) (var_names : pykeys)
           (groupby : option string) (average use_raw : pyval)
           (kwargs : kwargs_t)
  : list string * dispatched :=
  match atac_modality data with
  | inl e => ([], Dispatch_raised e)
  | inr adata =>
      let resolve keys :=
        match _average_peaks adata average use_raw keys with
        | (st, Ok (x, attr_names, tmp_names)) =>
            (warnings st,
             Dispatch_plotted
               (sc_pl_dotplot (Transient x adata false) attr_names groupby
                              use_raw kwargs)
               ReturnsNone)
        | (st, Raise e) => (warnings st, Dispatch_raised (Raised_by_resolver e))
        end in
      match var_names with
      | KeysStr s => resolve [s]
      | KeysIterable items => resolve items
      | _ =>
          ([], Dispatch_raised
                 (TypeError "Expected var_names to be a string or an iterable."))
      end
  end.

(** The keys a [color] or [var_names] argument stands for. *)
Definition keys_of (arg : pykeys) : option (list string) :=
  match arg with
  | KeysStr s => Some [s]
  | KeysIterable items => Some items
  | _ => None
  end.

(** The outcome of [dotplot] with another [use_raw] forwarded to scanpy. *)
Definition forwarding (use_raw : pyval) (out : list string * dispatched)
  : list string * dispatched :=
  match out with
  | (w, Dispatch_plotted (sc_pl_dotplot target names groupby _ kwargs) ret) =>
      (w, Dispatch_plotted (sc_pl_dotplot target names groupby use_raw kwargs)
                           ret)
  | _ => out
  end.

(** ** TSS enrichment *)

(** What [tss_enrichment] reads of its matrix: the axes, the values and
    the columns of [data.var]. *)
Record TssData : Type := mkTssData {
  tss_obs_names : list string;
  tss_var_names : list string;
  tss_X : list (list Q);                     (* one row per observation *)
  tss_var : list (string * list Q)           (* data.var, column by column *)
}.

(** The axes drawn on: the ones given, or [plt.gca()]. *)
Inductive axes : Type :=
| GivenAxes (id : nat)
| CurrentAxes.

(** The calls to matplotlib. A mean over no value is numpy's nan, [None]. *)
Inductive drawing : Type :=
| ax_plot (on : axes) (xs : list Q) (ys : list (option Q))
| plt_fill_between (xs : list Q) (lower upper : list (option Q)) (alpha : Q)
| plt_show.

Inductive tss_exception : Type :=
| KeyError_var (column : string)
    (* [data.var[column]] without that column *)
| KeyError_obs (not_found : list string).
    (* [data[index]] with unknown observation ids *)

Definition nanmean (l : list Q) : option Q :=
  match l with
  | [] => None
  | _ => Some (mean l)
  end.

(** The population variance, as [.var(axis=0)] computes it. *)
Definition nanvar (l : list Q) : option Q :=
  match l with
  | [] => None
  | _ => Some (mean (map (fun v => (v - mean l) * (v - mean l))%Q l))
  end.

Definition column_values (rows : list (list Q)) (j : nat) : list Q :=
  map (fun row => nth j row 0%Q) rows.

(** [.mean(axis=0)] and [.var(axis=0)] of a matrix with [n_vars] columns *)
Definition mean_axis0 (n_vars : nat) (rows : list (list Q))
  : list (option Q) :=
  map (fun j => nanmean (column_values rows j)) (seq 0 n_vars).

Definition var_axis0 (n_vars : nat) (rows : list (list Q))
  : list (option Q) :=
  map (fun j => nanvar (column_values rows j)) (seq 0 n_vars).

(** Elementwise [a - b] and [a + b] of two vectors, nan absorbing. *)
Definition vector_op (op : Q -> Q -> Q) (a b : list (option Q))
  : list (option Q) :=
  map (fun ab => match ab with
                 | (Some u, Some v) => Some (op u v)
                 | _ => None
                 end) (combine a b).

(** [_tss_enrichment_single]; [np.sqrt] is taken as given. *)
Definition _tss_enrichment_single (np_sqrt : Q -> Q) (data : TssData)
           (ax : axes) (sd : bool) : list drawing * option tss_exception :=
  match dict_get (tss_var data) "TSS_position" with
  | None => ([], Some (KeyError_var "TSS_position"))
  | Some x =>
      let n_vars := List.length (tss_var_names data) in
      let means := mean_axis0 n_vars (tss_X data) in
      ([ax_plot ax x means] ++
       (if sd then
          let sd := map (option_map np_sqrt) (var_axis0 n_vars (tss_X data)) in
          [plt_fill_between x (vector_op Qminus means sd)
                            (vector_op Qplus means sd) (2 # 10)]
        else []),
       None)
  end.

(** [data[index]]: the observations named by [index], in that order *)
Definition subset_obs (data : TssData) (index : list string)
  : tss_exception + TssData :=
  match filter (fun o => negb (contains (tss_obs_names data) o)) index with
  | [] =>
      inr (mkTssData index (tss_var_names data)
             (map (fun o => match index_of o (tss_obs_names data) with
                            | Some i => nth i (tss_X data) []
                            | None => []
                            end) index)
             (tss_var data))
  | not_found => inl (KeyError_obs not_found)
  end.

(** Lines 197-199: the loop over the groups that
    [data.obs.groupby(groupby)] yields, each with its name and the index
    of its observations. *)
Fixpoint plot_groups (np_sqrt : Q -> Q) (data : TssData) (ax : axes)
         (groups : list (string * list string))
  : list drawing * option tss_exception :=
  match groups with
  | [] => ([], None)
  | (name, index) :: rest =>
      match subset_obs data index with
      | inl e => ([], Some e)
      | inr ad =>
          match _tss_enrichment_single np_sqrt ad ax false with
          | (drawn, Some e) => (drawn, Some e)
          | (drawn, None) =>
              let (more, r) := plot_groups np_sqrt data ax rest in
              (drawn ++ more, r)
          end
      end
  end.

(** [tss_enrichment]. [groups] is [None] when [groupby] is [None], and
    otherwise the groups pandas yields for [groupby]. *)
Definition tss_enrichment (np_sqrt : Q -> Q) (data : TssData)
           (groups : option (list (string * list string))) (ax : option nat)
  : list drawing * option tss_exception :=
  let ax := match ax with Some id => GivenAxes id | None => CurrentAxes end in
  let (drawn, r) :=
    match groups with
    | Some gs => plot_groups np_sqrt data ax gs
    | None => _tss_enrichment_single np_sqrt data ax false
    end in
  match r with
  | None => (drawn ++ [plt_show], None)
  | Some e => (drawn, Some e)
  end.




(** ** Sample data *)

Module Sample.

Definition annotation : list annotation_row :=
  [ mkRow "G1" "chr1:1-100" "promoter";
    mkRow "G1" "chr1:200-300" "distal";
    mkRow "G2" "chr9:1-2" "distal" ].

(** Two observations, two peaks; no raw matrix. *)
Definition adata : AnnData :=
  mkAnnData ["c1"; "c2"] ["batch"] ["chr1:1-100"; "chr1:200-300"]
            [[2; 6]; [4; 8]]%Q None (Some (Some annotation)).

(** The same matrix, with a raw matrix of other values. *)
Definition adata_raw : AnnData :=
  mkAnnData ["c1"; "c2"] ["batch"] ["chr1:1-100"; "chr1:200-300"]
            [[2; 6]; [4; 8]]%Q
            (Some (mkRaw ["chr1:200-300"; "chr1:1-100"; "chr2:5-6"]
                         [[10; 20; 1]; [30; 50; 1]]%Q))
            (Some (Some annotation)).

(** The same matrix, whose [obs] already has a column named like the
    aggregate of G1. *)
Definition adata_obs_column : AnnData :=
  mkAnnData ["c1"; "c2"] ["batch"; "G1 (all peaks)"]
            ["chr1:1-100"; "chr1:200-300"]
            [[2; 6]; [4; 8]]%Q None (Some (Some annotation)).

(** The same matrix, whose [obs] already has a column named like the
    promoter aggregate of G1. *)
Definition adata_obs_promoter : AnnData :=
  mkAnnData ["c1"; "c2"] ["batch"; "G1 (promoter peaks)"]
            ["chr1:1-100"; "chr1:200-300"]
            [[2; 6]; [4; 8]]%Q None (Some (Some annotation)).

(** No ['atac'] entry in [uns]; and an ['atac'] entry without annotation. *)
Definition adata_no_atac : AnnData :=
  mkAnnData ["c1"; "c2"] ["batch"] ["chr1:1-100"; "chr1:200-300"]
            [[2; 6]; [4; 8]]%Q None None.


(** A container with two modalities. *)
Definition mdata : pydata :=
  PyMuData [("rna", adata_no_atac); ("atac", adata)].

(** Three observations in two groups, two features with their positions. *)
Definition tss_data : TssData :=
  mkTssData ["c1"; "c2"; "c3"] ["p1"; "p2"]
            [[1; 2]; [3; 4]; [5; 12]]%Q
            [("TSS_position", [(-100); 100]%Q)].

Definition tss_data_no_position : TssData :=
  mkTssData ["c1"; "c2"; "c3"] ["p1"; "p2"]
            [[1; 2]; [3; 4]; [5; 12]]%Q [].

End Sample.

(** ** Indexes and tables *)

Lemma contains_true_iff (index : list string) (name : string) :
  contains index name = true <-> In name index.
Proof.
  unfold contains. rewrite existsb_exists. split.
  - intros [n [Hin Heq]]. apply String.eqb_eq in Heq. now subst.
  - intros Hin. exists name. split; [assumption | apply String.eqb_refl].
Qed.

Lemma contains_false_iff (index : list string) (name : string) :
  contains index name = false <-> ~ In name index.
Proof.
  rewrite <- contains_true_iff. destruct (contains index name); split;
    intros; congruence.
Qed.

Lemma contains_app (l1 l2 : list string) (name : string) :
  contains (l1 ++ l2) name = contains l1 name || contains l2 name.
Proof. unfold contains. apply existsb_app. Qed.

Lemma index_of_In (name : string) (index : list string) :
  In name index -> exists j, index_of name index = Some j.
Proof.
  induction index as [|n rest IH]; simpl; [contradiction|].
  intros [Heq | Hin].
  - subst. rewrite String.eqb_refl. now exists 0%nat.
  - destruct (String.eqb name n); [now exists 0%nat|].
    destruct (IH Hin) as [j Hj]. rewrite Hj. now exists (S j).
Qed.

Lemma df_get_set_eq (df : DataFrame) (name : string) (v : list Q) :
  df_get (df_set df name v) name = Some v.
Proof.
  induction df as [|[n w] rest IH]; simpl.
  - now rewrite String.eqb_refl.
  - destruct (String.eqb name n) eqn:E; simpl; rewrite E; auto.
Qed.

Lemma df_get_set_neq (df : DataFrame) (name other : string) (v : list Q) :
  other <> name -> df_get (df_set df name v) other = df_get df other.
Proof.
  intros Hneq. induction df as [|[n w] rest IH]; simpl.
  - destruct (String.eqb_spec other name); [contradiction | reflexivity].
  - destruct (String.eqb_spec name n) as [->|Hn]; simpl.
    + destruct (String.eqb_spec other n); [contradiction | reflexivity].
    + rewrite IH. reflexivity.
Qed.

Lemma columns_df_set (df : DataFrame) (name : string) (v : list Q) :
  columns (df_set df name v) =
  if contains (columns df) name then columns df else columns df ++ [name].
Proof.
  unfold columns, contains.
  induction df as [|[n w] rest IH]; simpl; [reflexivity|].
  destruct (String.eqb name n); simpl; [reflexivity|].
  rewrite IH. now destruct (existsb (String.eqb name) (map fst rest)).
Qed.

Lemma In_columns_df_set (df : DataFrame) (name other : string) (v : list Q) :
  In other (columns (df_set df name v)) <-> other = name \/ In other (columns df).
Proof.
  rewrite columns_df_set.
  destruct (contains (columns df) name) eqn:E.
  - apply contains_true_iff in E. split; [auto | intros [->|H]; auto].
  - rewrite in_app_iff. simpl. intuition.
Qed.

Lemma NoDup_columns_df_set (df : DataFrame) (name : string) (v : list Q) :
  NoDup (columns df) -> NoDup (columns (df_set df name v)).
Proof.
  intros Hnd. rewrite columns_df_set.
  destruct (contains (columns df) name) eqn:E; [assumption|].
  apply contains_false_iff in E.
  apply NoDup_app; [assumption | repeat constructor; auto |].
  intros a Ha [<-|[]]. contradiction.
Qed.

Lemma df_get_In (df : DataFrame) (name : string) (v : list Q) :
  df_get df name = Some v -> In (name, v) df.
Proof.
  induction df as [|[n w] rest IH]; simpl; [discriminate|].
  destruct (String.eqb_spec name n) as [->|Hn].
  - intros [= ->]. now left.
  - intros H. right. auto.
Qed.

Lemma In_df_get (df : DataFrame) (name : string) (v : list Q) :
  NoDup (columns df) -> In (name, v) df -> df_get df name = Some v.
Proof.
  unfold columns. induction df as [|[n w] rest IH]; simpl; [contradiction|].
  intros Hnd [Heq | Hin].
  - injection Heq as -> ->. now rewrite String.eqb_refl.
  - inversion Hnd as [|? ? Hnotin Hnd']; subst.
    destruct (String.eqb_spec name n) as [->|Hn]; [|auto].
    exfalso. apply Hnotin. change n with (fst (n, v)). now apply in_map.
Qed.

Lemma df_get_columns (df : DataFrame) (name : string) (v : list Q) :
  df_get df name = Some v -> In name (columns df).
Proof.
  intros H. apply df_get_In in H. unfold columns.
  change name with (fst (name, v)). now apply in_map.
Qed.

Lemma count_occ_one (l : list string) (name : string) :
  NoDup l -> In name l -> count_occ string_dec l name = 1%nat.
Proof. intros Hnd Hin. now apply (proj1 (NoDup_count_occ' string_dec l) Hnd). Qed.

(** ** Selecting columns and averaging them *)

Lemma select_columns_incl (names : list string) (m : list (list Q))
      (ps : list string) :
  incl ps names ->
  select_columns names m ps =
  Ok (map (fun row =>
             map (fun l => match index_of l names with
                           | Some i => nth i row 0%Q
                           | None => 0%Q
                           end) ps) m).
Proof.
  intros Hincl. unfold select_columns.
  replace (filter (fun l => negb (contains names l)) ps) with (@nil string);
    [reflexivity|].
  symmetry. induction ps as [|p rest IH]; simpl; [reflexivity|].
  assert (Hp : contains names p = true)
    by (apply contains_true_iff, Hincl; now left).
  rewrite Hp. simpl. apply IH. intros q Hq. apply Hincl. now right.
Qed.


Lemma select_columns_length (names : list string) (m sub : list (list Q))
      (ps : list string) :
  select_columns names m ps = Ok sub -> List.length sub = List.length m.
Proof.
  unfold select_columns.
  destruct (filter _ ps); [|discriminate].
  intros [= <-]. apply length_map.
Qed.

Lemma map_by_position {A B} (f : A -> B) (d : A) (l : list A) :
  map f l = map (fun i => f (nth i l d)) (seq 0 (List.length l)).
Proof.
  induction l as [|a rest IH]; simpl; [reflexivity|].
  f_equal. rewrite <- seq_shift, map_map. exact IH.
Qed.

Lemma mean_axis1_selected (names : list string) (m : list (list Q))
      (ps : list string) :
  mean_axis1
    (map (fun row =>
            map (fun l => match index_of l names with
                          | Some i => nth i row 0%Q
                          | None => 0%Q
                          end) ps) m)
  = row_wise_mean names m ps.
Proof.
  unfold mean_axis1, row_wise_mean. rewrite map_map.
  rewrite (map_by_position _ [] m). reflexivity.
Qed.

Lemma averaged_readable (adata : AnnData) (use_raw : pyval)
      (names : list string) (m : list (list Q)) (ps : list string) :
  read_matrix adata use_raw = Some (names, m) ->
  incl ps names ->
  averaged adata use_raw ps = Ok (row_wise_mean names m ps).
Proof.
  unfold read_matrix, averaged. intros Hread Hincl.
  destruct (truthy use_raw).
  - destruct (raw adata) as [r|]; simpl in Hread; [|discriminate].
    injection Hread as <- <-.
    rewrite (select_columns_incl _ _ _ Hincl), mean_axis1_selected.
    reflexivity.
  - injection Hread as <- <-.
    rewrite (select_columns_incl _ _ _ Hincl), mean_axis1_selected.
    reflexivity.
Qed.

Lemma averaged_length (adata : AnnData) (use_raw : pyval) (ps : list string)
      (v : list Q) :
  well_shaped adata ->
  averaged adata use_raw ps = Ok v ->
  List.length v = List.length (obs_names adata).
Proof.
  intros [HX Hraw]. unfold averaged.
  destruct (truthy use_raw).
  - destruct (raw adata) as [r|] eqn:Er; [|discriminate].
    destruct (select_columns _ _ ps) as [sub|e] eqn:Es; [|discriminate].
    intros [= <-]. unfold mean_axis1. rewrite length_map.
    rewrite (select_columns_length _ _ _ _ Es). now apply Hraw.
  - destruct (select_columns _ _ ps) as [sub|e] eqn:Es; [|discriminate].
    intros [= <-]. unfold mean_axis1. rewrite length_map.
    now rewrite (select_columns_length _ _ _ _ Es).
Qed.


Lemma matched_peaks_incl (adata : AnnData) (table : list annotation_row)
      (key : string) :
  incl (matched_peaks adata table key) (var_names adata).
Proof.
  unfold matched_peaks, matched. intros p Hp.
  apply in_map_iff in Hp as [r [<- Hr]].
  apply filter_In in Hr as [_ Hr]. now apply contains_true_iff.
Qed.

(** With a falsy [use_raw], whatever survived the filter can be read. *)
Lemma readable_processed (adata : AnnData) (use_raw : pyval)
      (ps : list string) :
  truthy use_raw = false -> incl ps (var_names adata) ->
  readable adata use_raw ps.
Proof.
  intros Hf Hincl. exists (var_names adata), (X adata).
  unfold read_matrix. rewrite Hf. auto.
Qed.

(** ** One key at a time *)

Section Steps.

Variable adata : AnnData.
Variable average : pyval.
Variable use_raw : pyval.

Lemma derive_step (name : string) (p : list string) (st : state) :
  (attr_names_append name ;; tmp_names_append name ;;
   assign_mean adata use_raw name p) st =
  if contains (obs_columns adata) name then (announced st name, Ok tt)
  else match averaged adata use_raw p with
       | Ok v => (derived st name p v, Ok tt)
       | Raise e => (announced st name, Raise e)
       end.
Proof.
  unfold bind, assign_mean, attr_names_append, tmp_names_append. simpl.
  destruct (contains (obs_columns adata) name); simpl; [reflexivity|].
  unfold bind, lift. destruct (averaged adata use_raw p); reflexivity.
Qed.

Lemma run_keys_cons (key : string) (rest : list string) (st : state) :
  run_keys adata average use_raw (key :: rest) st =
  match process_key adata average use_raw key st with
  | (st', Ok _) => run_keys adata average use_raw rest st'
  | (st', Raise e) => (st', Raise e)
  end.
Proof. reflexivity. Qed.

Lemma process_key_direct (key : string) (st : state) :
  is_direct adata key = true ->
  process_key adata average use_raw key st = (listed st [key], Ok tt).
Proof.
  unfold is_direct, process_key. intros H.
  rewrite <- negb_orb, H. reflexivity.
Qed.

Lemma process_key_unannotated (key : string) (st : state) :
  is_direct adata key = false ->
  uns_atac adata = None \/ uns_atac adata = Some None ->
  process_key adata average use_raw key st =
  (st, Raise (KeyError (no_annotation_message key))).
Proof.
  unfold is_direct, process_key. intros H Huns.
  rewrite <- negb_orb, H. simpl.
  destruct Huns as [-> | ->]; reflexivity.
Qed.

Lemma process_key_unlinked (key : string) (table : list annotation_row)
      (st : state) :
  is_direct adata key = false ->
  uns_atac adata = Some (Some table) ->
  linked table key = [] ->
  process_key adata average use_raw key st = (st, Raise (KeyError_loc key)).
Proof.
  unfold is_direct, process_key, linked. intros H Huns Hl.
  rewrite <- negb_orb, H, Huns. simpl.
  unfold bind, lift, loc. rewrite Hl. reflexivity.
Qed.

Lemma process_key_gene (key : string) (table : list annotation_row)
      (st : state) :
  is_direct adata key = false ->
  uns_atac adata = Some (Some table) ->
  linked table key <> [] ->
  process_key adata average use_raw key st =
  aggregate adata average use_raw key (matched adata table key) st.
Proof.
  unfold is_direct, process_key, matched, linked. intros H Huns Hl.
  rewrite <- negb_orb, H, Huns. simpl.
  unfold bind, lift, loc.
  destruct (filter (fun r => String.eqb (gene r) key) table);
    [contradiction | reflexivity].
Qed.

Lemma aggregate_no_peaks (key : string) (st : state) :
  aggregate adata average use_raw key [] st =
  (warned st (peaks_not_found_message key), Ok tt).
Proof. reflexivity. Qed.

Lemma aggregate_total (key : string) (rows : list annotation_row)
      (st : state) :
  rows <> [] ->
  average = PyStr "total" \/ average = PyStr "all" ->
  aggregate adata average use_raw key rows st =
  (attr_names_append (all_peaks_name key) ;;
   tmp_names_append (all_peaks_name key) ;;
   assign_mean adata use_raw (all_peaks_name key) (map peak rows)) st.
Proof.
  intros Hne Hav. unfold aggregate.
  destruct rows as [|r rows]; [contradiction|].
  destruct Hav as [-> | ->]; reflexivity.
Qed.

Lemma aggregate_peak_type (key : string) (rows : list annotation_row)
      (st : state) :
  rows <> [] ->
  average = PyStr "peak_type" ->
  aggregate adata average use_raw key rows st =
  for_each (peak_dict_of (map peak_type rows) (map peak rows))
    (fun tp =>
       attr_names_append (peak_type_name key (fst tp)) ;;
       tmp_names_append (peak_type_name key (fst tp)) ;;
       assign_mean adata use_raw (peak_type_name key (fst tp)) (snd tp)) st.
Proof.
  intros Hne ->. unfold aggregate.
  destruct rows as [|r rows]; [contradiction | reflexivity].
Qed.

Lemma aggregate_per_peak (key : string) (rows : list annotation_row)
      (st : state) :
  rows <> [] ->
  py_eq_str average "total" = false ->
  py_eq_str average "all" = false ->
  py_eq_str average "peak_type" = false ->
  aggregate adata average use_raw key rows st =
  if py_is_not_None average && py_is_not_False average
     && py_ne_int average (-1)
  then (listed (warned st (not_recognised_message average)) (map peak rows),
        Ok tt)
  else (listed st (map peak rows), Ok tt).
Proof.
  intros Hne H1 H2 H3. unfold aggregate.
  destruct rows as [|r rows]; [contradiction|].
  cbn [List.length map Nat.eqb]. rewrite H1, H2, H3. cbn [orb].
  destruct (py_is_not_None average && py_is_not_False average
            && py_ne_int average (-1)); reflexivity.
Qed.

End Steps.

(** ** What a key can do to the state *)

Lemma py_eq_str_true (v : pyval) (lit : string) :
  py_eq_str v lit = true -> v = PyStr lit.
Proof.
  destruct v; simpl; try discriminate.
  intros H. apply String.eqb_eq in H. now subst.
Qed.


Lemma matched_linked (adata : AnnData) (table : list annotation_row)
      (key : string) :
  matched adata table key <> [] -> linked table key <> [].
Proof. unfold matched. intros H Hl. rewrite Hl in H. now apply H. Qed.

Lemma is_direct_true_iff (adata : AnnData) (key : string) :
  is_direct adata key = true <->
  In key (obs_names adata) \/ In key (obs_columns adata).
Proof.
  unfold is_direct. rewrite orb_true_iff, !contains_true_iff. reflexivity.
Qed.

Lemma is_direct_false_iff (adata : AnnData) (key : string) :
  is_direct adata key = false <->
  ~ In key (obs_names adata) /\ ~ In key (obs_columns adata).
Proof.
  unfold is_direct. rewrite orb_false_iff, !contains_false_iff. reflexivity.
Qed.

Section Outcomes.

Variable adata : AnnData.
Variable average : pyval.
Variable use_raw : pyval.

Lemma derive_all_cons (n : string) (p : list string)
      (cols : list (string * list string)) (st : state) :
  derive_all adata use_raw ((n, p) :: cols) st =
  if contains (obs_columns adata) n
  then derive_all adata use_raw cols (announced st n)
  else match averaged adata use_raw p with
       | Ok v => derive_all adata use_raw cols (derived st n p v)
       | Raise e => (announced st n, Raise e)
       end.
Proof.
  unfold derive_all. cbn [for_each]. unfold bind at 1.
  cbn [fst snd]. rewrite derive_step.
  destruct (contains (obs_columns adata) n); [reflexivity|].
  destruct (averaged adata use_raw p); reflexivity.
Qed.

Lemma derive_all_one (n : string) (p : list string) (st : state) :
  (attr_names_append n ;; tmp_names_append n ;;
   assign_mean adata use_raw n p) st = derive_all adata use_raw [(n, p)] st.
Proof.
  rewrite derive_all_cons, derive_step.
  destruct (contains (obs_columns adata) n); [reflexivity|].
  destruct (averaged adata use_raw p); reflexivity.
Qed.

Lemma for_each_map {A B} (f : A -> B) (body : B -> M unit) (l : list A)
      (st : state) :
  for_each (map f l) body st = for_each l (fun a => body (f a)) st.
Proof.
  revert st. induction l as [|a rest IH]; intros st; [reflexivity|].
  cbn [map for_each]. unfold bind.
  destruct (body (f a) st) as [st' [u|e]]; [apply IH | reflexivity].
Qed.

Lemma derive_all_map {A} (f : A -> string * list string) (l : list A)
      (st : state) :
  for_each l (fun a =>
    attr_names_append (fst (f a)) ;;
    tmp_names_append (fst (f a)) ;;
    assign_mean adata use_raw (fst (f a)) (snd (f a))) st
  = derive_all adata use_raw (map f l) st.
Proof. unfold derive_all. now rewrite for_each_map. Qed.

(** Every value list of the dictionary built by lines 50-52 is non-empty. *)
Lemma dict_append_nonempty (d : list (string * list string)) (k v : string) :
  Forall (fun tp => snd tp <> []) d ->
  Forall (fun tp => snd tp <> []) (dict_append d k v).
Proof.
  induction 1 as [|[k' vs] rest Hhd Htl IH]; simpl.
  - repeat constructor. discriminate.
  - destruct (String.eqb k k'); constructor; auto.
    simpl. destruct vs; discriminate.
Qed.

Lemma peak_dict_nonempty (peak_types peaks : list string) :
  Forall (fun tp => snd tp <> []) (peak_dict_of peak_types peaks).
Proof.
  unfold peak_dict_of.
  assert (G : forall l d, Forall (fun tp : string * list string => snd tp <> []) d ->
              Forall (fun tp => snd tp <> [])
                (fold_left (fun d kv => dict_append d (fst kv) (snd kv)) l d)).
  { induction l as [|kv l IH]; intros d Hd; simpl; [assumption|].
    apply IH, dict_append_nonempty, Hd. }
  apply G. constructor.
Qed.

Lemma process_key_outcome (key : string) (st : state) :
  key_outcome adata average use_raw st
              (process_key adata average use_raw key st).
Proof.
  destruct (is_direct adata key) eqn:Hd.
  { rewrite process_key_direct by assumption. constructor. }
  destruct (uns_atac adata) as [[table|]|] eqn:Huns.
  2,3: rewrite process_key_unannotated by auto; now constructor.
  destruct (linked table key) as [|l0 ls] eqn:Hl.
  { erewrite process_key_unlinked by eauto. now constructor. }
  erewrite process_key_gene by (eauto; rewrite Hl; discriminate).
  destruct (matched adata table key) as [|r rows] eqn:Hm.
  { rewrite aggregate_no_peaks. constructor. }
  assert (Hne : r :: rows <> []) by discriminate.
  assert (Horigin : total_origin adata average
                      (all_peaks_name key, map peak (r :: rows))).
  { intros _. exists key, table. rewrite <- Hm. auto. }
  destruct (py_eq_str average "total") eqn:E1.
  { rewrite aggregate_total by (auto using py_eq_str_true).
    rewrite derive_all_one. constructor. repeat constructor; [discriminate|].
    exact Horigin. }
  destruct (py_eq_str average "all") eqn:E2.
  { rewrite aggregate_total by (auto using py_eq_str_true).
    rewrite derive_all_one. constructor. repeat constructor; [discriminate|].
    exact Horigin. }
  destruct (py_eq_str average "peak_type") eqn:E3.
  { rewrite aggregate_peak_type by (auto using py_eq_str_true).
    rewrite (derive_all_map (fun tp => (peak_type_name key (fst tp), snd tp))).
    constructor. apply Forall_map. cbn [snd].
    eapply Forall_impl; [|apply peak_dict_nonempty].
    intros tp Htp. split; [assumption|].
    intros [Hav | Hav]; rewrite Hav in *; discriminate. }
  rewrite aggregate_per_peak by assumption.
  destruct (py_is_not_None average && py_is_not_False average
            && py_ne_int average (-1)); constructor.
Qed.

End Outcomes.

(** ** Invariants of the loop *)

Section Invariants.

Variable adata : AnnData.
Variable average : pyval.
Variable use_raw : pyval.

(** Properties that hold after every step, also when the call raises. *)
Section AtEveryStep.

Variable I : state -> Prop.
Hypothesis I_listed : forall st names, I st -> I (listed st names).
Hypothesis I_warned : forall st msg, I st -> I (warned st msg).
Hypothesis I_announced : forall st n, I st -> I (announced st n).
Hypothesis I_derived :
  forall st n p v,
    p <> [] -> total_origin adata average (n, p) ->
    ~ In n (obs_columns adata) ->
    averaged adata use_raw p = Ok v -> I st -> I (derived st n p v).

Lemma derive_all_invariant (cols : list (string * list string)) :
  Forall (fun np => snd np <> [] /\ total_origin adata average np) cols ->
  forall st st' r,
    I st -> derive_all adata use_raw cols st = (st', r) -> I st'.
Proof.
  induction 1 as [|[n p] cols [Hp Ho] Hcols IH]; intros st st' r Hst.
  - intros [= <- <-]. assumption.
  - rewrite derive_all_cons.
    destruct (contains (obs_columns adata) n) eqn:Hobs.
    + apply IH. auto.
    + apply contains_false_iff in Hobs.
      destruct (averaged adata use_raw p) as [v|e] eqn:Hv.
      * apply IH. auto.
      * intros [= <- <-]. auto.
Qed.

Lemma process_key_invariant (key : string) (st st' : state) (r : result unit) :
  I st -> process_key adata average use_raw key st = (st', r) -> I st'.
Proof.
  intros Hst Hrun.
  pose proof (process_key_outcome adata average use_raw key st) as Ho.
  rewrite Hrun in Ho. inversion Ho; subst; auto.
  eapply derive_all_invariant; eauto.
Qed.

Lemma run_keys_invariant (keys : list string) :
  forall st st' r,
    I st -> run_keys adata average use_raw keys st = (st', r) -> I st'.
Proof.
  induction keys as [|key rest IH]; intros st st' r Hst.
  - intros [= <- <-]. assumption.
  - rewrite run_keys_cons.
    destruct (process_key adata average use_raw key st) as [st1 [[]|e]] eqn:Hk.
    + apply IH. eapply process_key_invariant; eauto.
    + intros [= <- <-]. eapply process_key_invariant; eauto.
Qed.

End AtEveryStep.

(** Properties that hold between keys, as long as nothing was raised. *)
Section BetweenKeys.

Variable J : state -> Prop.
Hypothesis J_listed : forall st names, J st -> J (listed st names).
Hypothesis J_warned : forall st msg, J st -> J (warned st msg).
Hypothesis J_announced :
  forall st n, In n (obs_columns adata) -> J st -> J (announced st n).
Hypothesis J_derived :
  forall st n p v,
    ~ In n (obs_columns adata) ->
    averaged adata use_raw p = Ok v -> J st -> J (derived st n p v).

Lemma derive_all_between (cols : list (string * list string)) :
  forall st st',
    J st -> derive_all adata use_raw cols st = (st', Ok tt) -> J st'.
Proof.
  induction cols as [|[n p] cols IH]; intros st st' Hst.
  - intros [= <-]. assumption.
  - rewrite derive_all_cons.
    destruct (contains (obs_columns adata) n) eqn:Hobs.
    + apply contains_true_iff in Hobs. apply IH. auto.
    + apply contains_false_iff in Hobs.
      destruct (averaged adata use_raw p) as [v|e] eqn:Hv; [|discriminate].
      apply IH. auto.
Qed.

Lemma process_key_between (key : string) (st st' : state) :
  J st -> process_key adata average use_raw key st = (st', Ok tt) -> J st'.
Proof.
  intros Hst Hrun.
  pose proof (process_key_outcome adata average use_raw key st) as Ho.
  rewrite Hrun in Ho. inversion Ho; subst; auto.
  eapply derive_all_between; eauto.
Qed.

Lemma run_keys_between (keys : list string) :
  forall st st',
    J st -> run_keys adata average use_raw keys st = (st', Ok tt) -> J st'.
Proof.
  induction keys as [|key rest IH]; intros st st' Hst.
  - intros [= <-]. assumption.
  - rewrite run_keys_cons.
    destruct (process_key adata average use_raw key st) as [st1 [[]|e]] eqn:Hk;
      [|discriminate].
    apply IH. eapply process_key_between; eauto.
Qed.

End BetweenKeys.



End Invariants.

(** ** The call as a whole *)

Lemma average_peaks_run (adata : AnnData) (average use_raw : pyval)
      (keys : list string) :
  _average_peaks adata average use_raw keys =
  match run_keys adata average use_raw keys init_state with
  | (st, Ok _) => (st, Ok (x st, attr_names st, tmp_names st))
  | (st, Raise e) => (st, Raise e)
  end.
Proof. reflexivity. Qed.

Lemma average_peaks_ok (adata : AnnData) (average use_raw : pyval)
      (keys : list string) (st : state) (df : DataFrame)
      (display_names new_names : list string) :
  _average_peaks adata average use_raw keys =
    (st, Ok (df, display_names, new_names)) ->
  run_keys adata average use_raw keys init_state = (st, Ok tt) /\
  df = x st /\ display_names = attr_names st /\ new_names = tmp_names st.
Proof.
  rewrite average_peaks_run.
  destruct (run_keys adata average use_raw keys init_state) as [st1 [[]|e]];
    [|discriminate].
  intros [= -> <- <- <-]. auto.
Qed.


Lemma average_peaks_state (adata : AnnData) (average use_raw : pyval)
      (keys : list string) (st : state)
      (r : result (DataFrame * list string * list string)) :
  _average_peaks adata average use_raw keys = (st, r) ->
  exists r', run_keys adata average use_raw keys init_state = (st, r').
Proof.
  rewrite average_peaks_run.
  destruct (run_keys adata average use_raw keys init_state) as [st1 [[]|e1]];
    intros [= -> _]; eauto.
Qed.

(** ** Keys matched directly *)



(** ** Genes without usable peaks *)

Lemma filter_nothing {A} (f : A -> bool) (l : list A) :
  (forall a, In a l -> f a = false) -> filter f l = [].
Proof.
  induction l as [|a rest IH]; intros H; simpl; [reflexivity|].
  rewrite (H a) by now left. apply IH. intros b Hb. apply H. now right.
Qed.

(** C4. A gene key whose linked peaks are all absent from the feature axis
    emits exactly one warning, which names the key, adds no column, no
    display name and no new name, evaluates no mean, does not raise, and
    the loop goes on with the next key. *)
Theorem gene_without_peaks_warns
        (adata : AnnData) (average use_raw : pyval) (key : string)
        (table : list annotation_row) (st : state) :
  is_direct adata key = false ->
  uns_atac adata = Some (Some table) ->
  linked table key <> [] ->
  (forall r, In r (linked table key) -> ~ In (peak r) (var_names adata)) ->
  exists st',
    process_key adata average use_raw key st = (st', Ok tt) /\
    warnings st' =
      warnings st ++ [("Peaks for " ++ key ++ " are not found.")%string] /\
    x st' = x st /\
    attr_names st' = attr_names st /\
    tmp_names st' = tmp_names st /\
    mean_log st' = mean_log st /\
    forall rest,
      run_keys adata average use_raw (key :: rest) st =
      run_keys adata average use_raw rest st'.
Proof.
  intros Hdirect Huns Hlinked Habsent.
  assert (Hm : matched adata table key = []).
  { unfold matched. apply filter_nothing. intros r Hr.
    apply contains_false_iff, Habsent, Hr. }
  exists (warned st (peaks_not_found_message key)).
  assert (Hp : process_key adata average use_raw key st =
               (warned st (peaks_not_found_message key), Ok tt)).
  { rewrite (process_key_gene _ _ _ _ table) by assumption.
    rewrite Hm. apply aggregate_no_peaks. }
  repeat split; try assumption.
  intros rest. rewrite run_keys_cons, Hp. reflexivity.
Qed.

Lemma gene_without_peaks_warns_witness :
  exists st',
    process_key Sample.adata (PyStr "total") (PyBool true) "G2" init_state
      = (st', Ok tt) /\
    warnings st' = ["Peaks for G2 are not found."] /\
    x st' = [] /\
    attr_names st' = [] /\
    tmp_names st' = [] /\
    mean_log st' = [] /\
    forall rest,
      run_keys Sample.adata (PyStr "total") (PyBool true) ("G2" :: rest)
               init_state =
      run_keys Sample.adata (PyStr "total") (PyBool true) rest st'.
Proof.
  apply (gene_without_peaks_warns Sample.adata (PyStr "total") (PyBool true)
           "G2" Sample.annotation init_state).
  - reflexivity.
  - reflexivity.
  - simpl. discriminate.
  - simpl. intros r [<- | []]. simpl.
    intros [H | [H | []]]; discriminate.
Defined.

(** ** Modes that do not aggregate *)




(** ** Raising *)




(** ** A falsy [use_raw] *)

Lemma for_each_ext {A} (body body' : A -> M unit) (l : list A) :
  (forall a st, body a st = body' a st) ->
  forall st, for_each l body st = for_each l body' st.
Proof.
  intros Hext. induction l as [|a rest IH]; intros st; [reflexivity|].
  cbn [for_each]. unfold bind. rewrite Hext.
  destruct (body' a st) as [st' [u|e]]; [apply IH | reflexivity].
Qed.

Lemma averaged_falsy (adata : AnnData) (use_raw : pyval) (r : option Raw)
      (p : list string) :
  truthy use_raw = false ->
  averaged (with_raw adata r) use_raw p = averaged adata (PyBool false) p.
Proof. intros H. unfold averaged. rewrite H. reflexivity. Qed.

Lemma aggregate_falsy (adata : AnnData) (average use_raw : pyval)
      (r : option Raw) (key : string) (rows : list annotation_row)
      (st : state) :
  truthy use_raw = false ->
  aggregate (with_raw adata r) average use_raw key rows st =
  aggregate adata average (PyBool false) key rows st.
Proof.
  intros H. unfold aggregate, assign_mean.
  cbn [with_raw obs_names obs_columns uns_atac var_names].
  destruct (Nat.eqb _ 0); [reflexivity|].
  destruct (py_eq_str average "total" || py_eq_str average "all").
  { now rewrite averaged_falsy. }
  destruct (py_eq_str average "peak_type"); [|reflexivity].
  apply for_each_ext. intros tp st0.
  now rewrite averaged_falsy.
Qed.

Lemma process_key_falsy (adata : AnnData) (average use_raw : pyval)
      (r : option Raw) (key : string) (st : state) :
  truthy use_raw = false ->
  process_key (with_raw adata r) average use_raw key st =
  process_key adata average (PyBool false) key st.
Proof.
  intros H. unfold process_key.
  cbn [with_raw obs_names obs_columns uns_atac var_names].
  destruct (negb (contains (obs_names adata) key)
            && negb (contains (obs_columns adata) key)); [|reflexivity].
  destruct (uns_atac adata) as [[table|]|]; try reflexivity.
  unfold bind, lift.
  destruct (loc table key) as [rows|e]; [|reflexivity].
  now apply aggregate_falsy.
Qed.

Lemma run_keys_falsy (adata : AnnData) (average use_raw : pyval)
      (r : option Raw) (keys : list string) :
  truthy use_raw = false ->
  forall st,
    run_keys (with_raw adata r) average use_raw keys st =
    run_keys adata average (PyBool false) keys st.
Proof.
  intros H. induction keys as [|key rest IH]; intros st; [reflexivity|].
  rewrite !run_keys_cons, process_key_falsy by assumption.
  destruct (process_key adata average (PyBool false) key st) as [st' [u|e]];
    [apply IH | reflexivity].
Qed.


(** ** Bookkeeping of the derived names *)

Lemma In_df_set_inv (df : DataFrame) (name other : string) (v w : list Q) :
  In (other, w) (df_set df name v) -> (other, w) = (name, v) \/ In (other, w) df.
Proof.
  induction df as [|[n u] rest IH]; simpl.
  - intros [H | []]. now left.
  - destruct (String.eqb_spec name n) as [->|Hn]; simpl.
    + intros [H | H]; [left; now symmetry | right; now right].
    + intros [H | H]; [right; now left|].
      destruct (IH H) as [H' | H']; [now left | right; now right].
Qed.

Lemma count_occ_snoc (l : list string) (name other : string) :
  count_occ string_dec (l ++ [name]) other =
  (count_occ string_dec l other + if string_dec name other then 1 else 0)%nat.
Proof. rewrite count_occ_app. simpl. now destruct (string_dec name other). Qed.

Section Bookkeeping.

Variable adata : AnnData.
Variable average : pyval.
Variable use_raw : pyval.

Lemma bookkeeping_init : bookkeeping adata init_state.
Proof.
  unfold bookkeeping. simpl. repeat split; auto; try constructor;
    try contradiction; tauto.
Qed.

Lemma bookkeeping_listed (st : state) (names : list string) :
  bookkeeping adata st -> bookkeeping adata (listed st names).
Proof.
  intros (H1 & H2 & H3 & H4 & H5). unfold bookkeeping. simpl.
  split; [assumption|]. split; [|auto].
  intros n. rewrite count_occ_app. specialize (H2 n). lia.
Qed.

Lemma bookkeeping_warned (st : state) (msg : string) :
  bookkeeping adata st -> bookkeeping adata (warned st msg).
Proof. intros H. exact H. Qed.

Lemma bookkeeping_announced (st : state) (n : string) :
  In n (obs_columns adata) -> bookkeeping adata st -> bookkeeping adata (announced st n).
Proof.
  intros Hobs (H1 & H2 & H3 & H4 & H5). unfold bookkeeping. simpl.
  split; [assumption|]. split; [|split; [assumption|split]].
  - intros m. rewrite !count_occ_snoc. specialize (H2 m). lia.
  - intros m Hm. rewrite count_occ_snoc, (H4 m Hm).
    destruct (string_dec n m) as [->|]; [contradiction | lia].
  - intros m. rewrite H5, in_app_iff. simpl. split.
    + intros [Ht Ho]. auto.
    + intros [[Ht | [<- | []]] Ho]; [auto | contradiction].
Qed.

Lemma bookkeeping_derived (st : state) (n : string) (p : list string)
      (v : list Q) :
  ~ In n (obs_columns adata) ->
  bookkeeping adata st -> bookkeeping adata (derived st n p v).
Proof.
  intros Hobs (H1 & H2 & H3 & H4 & H5). unfold bookkeeping. simpl.
  split; [now apply NoDup_columns_df_set|].
  split; [|split; [|split]].
  - intros m. rewrite !count_occ_snoc. specialize (H2 m). lia.
  - intros m Hm. rewrite map_app. simpl. rewrite count_occ_snoc, (H3 m Hm).
    destruct (string_dec n m) as [->|]; [contradiction | lia].
  - intros m Hm. rewrite map_app. simpl. rewrite !count_occ_snoc, (H4 m Hm).
    reflexivity.
  - intros m. rewrite In_columns_df_set, H5, in_app_iff. simpl. split.
    + intros [-> | [Ht Ho]]; auto.
    + intros [[Ht | [<- | []]] Ho]; auto.
Qed.

Lemma run_keys_bookkeeping (keys : list string) (st : state) :
  run_keys adata average use_raw keys init_state = (st, Ok tt) ->
  bookkeeping adata st.
Proof.
  apply (run_keys_between adata average use_raw (bookkeeping adata));
    auto using bookkeeping_listed, bookkeeping_warned, bookkeeping_announced,
               bookkeeping_derived, bookkeeping_init.
Qed.

Lemma run_keys_means_sound (keys : list string) (st : state)
      (r : result unit) :
  run_keys adata average use_raw keys init_state = (st, r) ->
  means_sound adata use_raw st.
Proof.
  apply (run_keys_invariant adata average use_raw (means_sound adata use_raw)); auto.
  - intros st0 n p v Hp _ Hobs Hv [Hlog Hx]. split; simpl.
    + apply Forall_app. split; [assumption | repeat constructor; assumption].
    + intros name values Hin. apply In_df_set_inv in Hin as [Heq | Hin].
      * injection Heq as -> ->. exists p. split; [|assumption].
        apply in_app_iff. right. now left.
      * destruct (Hx _ _ Hin) as [q [Hq Hv']]. exists q. split; [|assumption].
        apply in_app_iff. now left.
  - split; simpl; [constructor | contradiction].
Qed.

End Bookkeeping.

Lemma select_columns_ok_incl (names : list string) (m sub : list (list Q))
      (ps : list string) :
  select_columns names m ps = Ok sub -> incl ps names.
Proof.
  unfold select_columns.
  destruct (filter (fun l => negb (contains names l)) ps) eqn:Hf;
    [|discriminate].
  intros _ p Hp. apply contains_true_iff.
  destruct (contains names p) eqn:Hc; [reflexivity|].
  assert (Hin : In p (filter (fun l => negb (contains names l)) ps))
    by (apply filter_In; now rewrite Hc).
  rewrite Hf in Hin. contradiction.
Qed.

Lemma averaged_ok_inv (adata : AnnData) (use_raw : pyval) (p : list string)
      (v : list Q) :
  averaged adata use_raw p = Ok v ->
  exists names m,
    read_matrix adata use_raw = Some (names, m) /\ incl p names /\
    v = row_wise_mean names m p.
Proof.
  intros Hv.
  assert (G : exists names m,
             read_matrix adata use_raw = Some (names, m) /\ incl p names).
  { unfold averaged in Hv. unfold read_matrix.
    destruct (truthy use_raw).
    - destruct (raw adata) as [r|]; [|discriminate].
      destruct (select_columns _ _ p) as [sub|e] eqn:Es; [|discriminate].
      exists (raw_var_names r), (raw_X r). split; [reflexivity|].
      eapply select_columns_ok_incl, Es.
    - destruct (select_columns _ _ p) as [sub|e] eqn:Es; [|discriminate].
      exists (var_names adata), (X adata). split; [reflexivity|].
      eapply select_columns_ok_incl, Es. }
  destruct G as (names & m & Hread & Hincl).
  exists names, m. repeat split; try assumption.
  rewrite (averaged_readable _ _ _ _ _ Hread Hincl) in Hv. congruence.
Qed.

(** C9. In every call, raising or not, each mean that is evaluated is
    taken over a non-empty list of peaks; and, the matrix (and its raw
    matrix) having one row per observation, every column of the derived
    table has one value per observation: it is the row-wise mean, in the
    observation order of the matrix read, over one of those lists. *)
Theorem means_over_nonempty_subsets
        (adata : AnnData) (average use_raw : pyval) (keys : list string)
        (st : state) (r : result (DataFrame * list string * list string)) :
  well_shaped adata ->
  _average_peaks adata average use_raw keys = (st, r) ->
  Forall (fun entry => snd entry <> []) (mean_log st) /\
  forall name values,
    In (name, values) (x st) ->
    List.length values = List.length (obs_names adata) /\
    exists names m p,
      p <> [] /\ In (name, p) (mean_log st) /\
      read_matrix adata use_raw = Some (names, m) /\
      values = row_wise_mean names m p.
Proof.
  intros Hshape Hcall.
  apply average_peaks_state in Hcall as [r' Hrun].
  apply run_keys_means_sound in Hrun as [Hlog Hx].
  split; [assumption|].
  intros name values Hin.
  destruct (Hx _ _ Hin) as (p & Hp & Hv).
  split; [eapply averaged_length; eauto|].
  destruct (averaged_ok_inv _ _ _ _ Hv) as (names & m & Hread & _ & Hval).
  exists names, m, p. repeat split; try assumption.
  rewrite Forall_forall in Hlog. apply (Hlog _ Hp).
Qed.

Lemma means_over_nonempty_subsets_witness :
  Forall (fun entry => snd entry <> [])
         [("G1 (promoter peaks)", ["chr1:1-100"]);
          ("G1 (distal peaks)", ["chr1:200-300"])] /\
  forall name values,
    In (name, values)
       [("G1 (promoter peaks)", [2; 4]%Q); ("G1 (distal peaks)", [6; 8]%Q)] ->
    List.length values = 2%nat /\
    exists names m p,
      p <> [] /\
      In (name, p) [("G1 (promoter peaks)", ["chr1:1-100"]);
                    ("G1 (distal peaks)", ["chr1:200-300"])] /\
      read_matrix Sample.adata_raw (PyBool false) = Some (names, m) /\
      values = row_wise_mean names m p.
Proof.
  apply (means_over_nonempty_subsets Sample.adata_raw (PyStr "peak_type")
           (PyBool false) ["G1"; "G2"]
           (fst (_average_peaks Sample.adata_raw (PyStr "peak_type")
                                (PyBool false) ["G1"; "G2"]))
           (snd (_average_peaks Sample.adata_raw (PyStr "peak_type")
                                (PyBool false) ["G1"; "G2"]))).
  - split; [reflexivity|]. intros r H. injection H as <-. reflexivity.
  - reflexivity.
Defined.







(** ** One column for all peaks *)

Lemma length_append (s1 s2 : string) :
  String.length (s1 ++ s2) = (String.length s1 + String.length s2)%nat.
Proof. induction s1 as [|c s1 IH]; simpl; [reflexivity | now rewrite IH]. Qed.

Lemma append_inv_tail (s1 s2 t : string) :
  (s1 ++ t = s2 ++ t)%string -> s1 = s2.
Proof.
  revert s2. induction s1 as [|c s1 IH]; intros [|d s2]; simpl.
  - reflexivity.
  - intros H. apply (f_equal String.length) in H. simpl in H.
    rewrite length_append in H. lia.
  - intros H. apply (f_equal String.length) in H. simpl in H.
    rewrite length_append in H. lia.
  - intros H. injection H as -> Hs. f_equal. now apply IH.
Qed.

Lemma append_inv_head (s t1 t2 : string) :
  (s ++ t1 = s ++ t2)%string -> t1 = t2.
Proof.
  induction s as [|c s IH]; simpl; [auto|].
  intros H. injection H as H. now apply IH.
Qed.

Lemma all_peaks_name_inj (k1 k2 : string) :
  all_peaks_name k1 = all_peaks_name k2 -> k1 = k2.
Proof. apply append_inv_tail. Qed.

Lemma peak_type_name_inj (key t1 t2 : string) :
  peak_type_name key t1 = peak_type_name key t2 -> t1 = t2.
Proof.
  simpl. intros H. apply append_inv_head in H.
  apply (append_inv_head " (") in H. now apply append_inv_tail in H.
Qed.

Lemma mean_column_intro (adata : AnnData) (use_raw : pyval) (df : DataFrame)
      (name : string) (ps : list string) (v : list Q) :
  NoDup (columns df) ->
  df_get df name = Some v ->
  averaged adata use_raw ps = Ok v ->
  mean_column adata use_raw df name ps.
Proof.
  intros Hnd Hget Hv. split.
  - apply count_occ_one; [assumption|]. eapply df_get_columns, Hget.
  - destruct (averaged_ok_inv _ _ _ _ Hv) as (names & m & Hread & _ & ->).
    now exists names, m.
Qed.

Lemma averaged_of_readable (adata : AnnData) (use_raw : pyval)
      (ps : list string) :
  (truthy use_raw = true -> readable adata use_raw ps) ->
  incl ps (var_names adata) ->
  exists v, averaged adata use_raw ps = Ok v.
Proof.
  intros Hraw Hincl.
  assert (Hr : readable adata use_raw ps).
  { destruct (truthy use_raw) eqn:Ht; [now apply Hraw|].
    now apply readable_processed. }
  destruct Hr as (names & m & Hread & Hin).
  eexists. eapply averaged_readable; eauto.
Qed.

Lemma total_column_persists
      (adata : AnnData) (average use_raw : pyval) (key : string)
      (table : list annotation_row) (v : list Q) :
  average = PyStr "total" \/ average = PyStr "all" ->
  uns_atac adata = Some (Some table) ->
  averaged adata use_raw (matched_peaks adata table key) = Ok v ->
  forall rest st out r,
    NoDup (columns (x st)) /\ df_get (x st) (all_peaks_name key) = Some v ->
    run_keys adata average use_raw rest st = (out, r) ->
    NoDup (columns (x out)) /\ df_get (x out) (all_peaks_name key) = Some v.
Proof.
  intros Hav Huns Hv rest.
  apply (run_keys_invariant adata average use_raw
           (fun s => NoDup (columns (x s)) /\
                     df_get (x s) (all_peaks_name key) = Some v)); auto.
  intros st n p w _ Horigin _ Hw [Hnd Hget]. cbn [derived x].
  split; [now apply NoDup_columns_df_set|].
  destruct (string_dec (all_peaks_name key) n) as [<-|Hneq];
    [|rewrite df_get_set_neq; auto].
  destruct (Horigin Hav) as (key' & table' & Huns' & Heq).
  injection Heq as Hname ->.
  apply all_peaks_name_inj in Hname. subst key'.
  rewrite Huns in Huns'. injection Huns' as <-.
  rewrite Hv in Hw. injection Hw as <-. apply df_get_set_eq.
Qed.

(** C1, as the code has it. Under the mode "total" or "all", a gene key
    with matched peaks, whose derived name "<key> (all peaks)" is not
    already a column of [obs], the matrix read having the matched peaks
    (which is so whenever [use_raw] is falsy): the key is processed without
    raising, the derived name is appended to the display names and to the
    new names, no other column is touched, and the derived table then has
    exactly one column of that name, holding for each observation, in the
    order of the matrix, the mean over the matched peaks of the values of
    the matrix read (the raw one if [use_raw] is truthy); and so it is in
    the table at any later point of the call. *)
Theorem total_mode_mean_column
        (adata : AnnData) (average use_raw : pyval) (key : string)
        (table : list annotation_row) (st : state) :
  average = PyStr "total" \/ average = PyStr "all" ->
  is_direct adata key = false ->
  uns_atac adata = Some (Some table) ->
  matched adata table key <> [] ->
  ~ In (key ++ " (all peaks)")%string (obs_columns adata) ->
  (truthy use_raw = true ->
   readable adata use_raw (matched_peaks adata table key)) ->
  NoDup (columns (x st)) ->
  exists st',
    process_key adata average use_raw key st = (st', Ok tt) /\
    attr_names st' = attr_names st ++ [(key ++ " (all peaks)")%string] /\
    tmp_names st' = tmp_names st ++ [(key ++ " (all peaks)")%string] /\
    warnings st' = warnings st /\
    (forall other,
       other <> (key ++ " (all peaks)")%string ->
       df_get (x st') other = df_get (x st) other) /\
    mean_column adata use_raw (x st') (key ++ " (all peaks)")%string
                (matched_peaks adata table key) /\
    forall rest out r,
      run_keys adata average use_raw rest st' = (out, r) ->
      mean_column adata use_raw (x out) (key ++ " (all peaks)")%string
                  (matched_peaks adata table key).
Proof.
  intros Hav Hdirect Huns Hm Hobs Hraw Hnd.
  destruct (averaged_of_readable adata use_raw _ Hraw
              (matched_peaks_incl adata table key)) as [v Hv].
  pose proof (process_key_gene adata average use_raw key table st Hdirect Huns
                (matched_linked _ _ _ Hm)) as Hp.
  rewrite (aggregate_total _ _ _ _ _ _ Hm Hav), derive_step in Hp.
  apply contains_false_iff in Hobs.
  change (all_peaks_name key) with (key ++ " (all peaks)")%string in Hp.
  rewrite Hobs in Hp. fold (matched_peaks adata table key) in Hp.
  rewrite Hv in Hp.
  exists (derived st (key ++ " (all peaks)")%string
                  (matched_peaks adata table key) v).
  assert (Hnow : NoDup (columns (df_set (x st) (key ++ " (all peaks)")%string v))
                 /\ df_get (df_set (x st) (key ++ " (all peaks)")%string v)
                           (key ++ " (all peaks)")%string = Some v)
    by (split; [now apply NoDup_columns_df_set | apply df_get_set_eq]).
  split; [exact Hp|].
  split; [reflexivity|]. split; [reflexivity|]. split; [reflexivity|].
  split; [|split].
  - intros other Hother. cbn [derived x]. now apply df_get_set_neq.
  - destruct Hnow. eapply mean_column_intro; eauto.
  - intros rest out r Hrun.
    destruct (total_column_persists adata average use_raw key table v
                Hav Huns Hv rest
                (derived st (key ++ " (all peaks)")%string
                         (matched_peaks adata table key) v)
                out r Hnow Hrun) as [Hnd' Hget].
    eapply mean_column_intro; eauto.
Qed.

Lemma total_mode_mean_column_witness :
  exists st',
    process_key Sample.adata_raw (PyStr "total") (PyBool true) "G1" init_state
      = (st', Ok tt) /\
    attr_names st' = ["G1 (all peaks)"] /\
    tmp_names st' = ["G1 (all peaks)"] /\
    warnings st' = [] /\
    (forall other,
       other <> "G1 (all peaks)" ->
       df_get (x st') other = df_get (x init_state) other) /\
    mean_column Sample.adata_raw (PyBool true) (x st') "G1 (all peaks)"
                ["chr1:1-100"; "chr1:200-300"] /\
    forall rest out r,
      run_keys Sample.adata_raw (PyStr "total") (PyBool true) rest st'
        = (out, r) ->
      mean_column Sample.adata_raw (PyBool true) (x out) "G1 (all peaks)"
                  ["chr1:1-100"; "chr1:200-300"].
Proof.
  apply (total_mode_mean_column Sample.adata_raw (PyStr "total") (PyBool true)
           "G1" Sample.annotation init_state).
  - left. reflexivity.
  - reflexivity.
  - reflexivity.
  - simpl. discriminate.
  - simpl. intros [H | []]; discriminate.
  - intros _. exists ["chr1:200-300"; "chr1:1-100"; "chr2:5-6"],
                     [[10; 20; 1]; [30; 50; 1]]%Q.
    split; [reflexivity|]. simpl.
    intros p [<- | [<- | []]]; simpl; auto.
  - simpl. constructor.
Defined.

(** The example of the specification: peaks valued [2,4] and [6,8] over the
    two observations average to [4,6]. *)
Example total_mode_example :
  snd (_average_peaks Sample.adata (PyStr "total") (PyBool false) ["G1"]) =
  Ok ([("G1 (all peaks)", [4; 6]%Q)], ["G1 (all peaks)"], ["G1 (all peaks)"]).
Proof. reflexivity. Qed.

(** When [obs] already has a column named like the aggregate, the gene key
    yields no derived column. *)
Lemma obs_column_blocks_total_column :
  is_direct Sample.adata_obs_column "G1" = false /\
  matched_peaks Sample.adata_obs_column Sample.annotation "G1" =
    ["chr1:1-100"; "chr1:200-300"] /\
  snd (_average_peaks Sample.adata_obs_column (PyStr "total") (PyBool false)
                      ["G1"]) =
    Ok ([], ["G1 (all peaks)"], ["G1 (all peaks)"]) /\
  ~ mean_column Sample.adata_obs_column (PyBool false) [] "G1 (all peaks)"
                ["chr1:1-100"; "chr1:200-300"].
Proof.
  repeat split. intros [Hcount _]. simpl in Hcount. discriminate.
Qed.

(** ** One column per peak type *)

Lemma combine_maps {A B C} (f : A -> B) (g : A -> C) (l : list A) :
  combine (map f l) (map g l) = map (fun a => (f a, g a)) l.
Proof. induction l as [|a l IH]; simpl; [reflexivity | now rewrite IH]. Qed.

Lemma first_seen_snoc (l : list string) (a : string) :
  first_seen (l ++ [a]) =
  if contains (first_seen l) a then first_seen l else first_seen l ++ [a].
Proof. unfold first_seen. now rewrite fold_left_app. Qed.

Lemma first_seen_In (l : list string) (a : string) :
  In a (first_seen l) <-> In a l.
Proof.
  revert a. induction l as [|b l IH] using rev_ind; intros a; [reflexivity|].
  rewrite first_seen_snoc, in_app_iff. simpl.
  destruct (contains (first_seen l) b) eqn:E.
  - apply contains_true_iff, IH in E. rewrite IH.
    split; [auto | intros [H | [<- | []]]; auto].
  - rewrite in_app_iff, IH. simpl. reflexivity.
Qed.

Lemma first_seen_NoDup (l : list string) : NoDup (first_seen l).
Proof.
  induction l as [|b l IH] using rev_ind; [constructor|].
  rewrite first_seen_snoc.
  destruct (contains (first_seen l) b) eqn:E; [assumption|].
  apply contains_false_iff in E.
  apply NoDup_app; [assumption | repeat constructor; auto |].
  intros a Ha [<- | []]. contradiction.
Qed.

Lemma peaks_of_type_snoc (rows : list annotation_row) (r : annotation_row)
      (t : string) :
  peaks_of_type (rows ++ [r]) t =
  peaks_of_type rows t ++ (if String.eqb (peak_type r) t then [peak r] else []).
Proof.
  unfold peaks_of_type. rewrite filter_app, map_app. simpl.
  now destruct (String.eqb (peak_type r) t).
Qed.

Lemma peaks_of_type_unseen (rows : list annotation_row) (t : string) :
  ~ In t (map peak_type rows) -> peaks_of_type rows t = [].
Proof.
  intros Hnot. unfold peaks_of_type. rewrite filter_nothing; [reflexivity|].
  intros r Hr. apply String.eqb_neq. intros <-.
  apply Hnot. now apply in_map.
Qed.

Lemma dict_append_map (ts : list string) (F : string -> list string)
      (k v : string) :
  NoDup ts ->
  dict_append (map (fun t => (t, F t)) ts) k v =
  if contains ts k
  then map (fun t => (t, F t ++ (if String.eqb k t then [v] else []))) ts
  else map (fun t => (t, F t)) ts ++ [(k, [v])].
Proof.
  unfold contains.
  induction 1 as [|t ts Hnotin Hnd IH]; simpl; [reflexivity|].
  destruct (String.eqb_spec k t) as [<-|Hneq]; simpl.
  - f_equal. apply map_ext_in. intros t' Ht'.
    destruct (String.eqb_spec k t') as [<-|_]; [contradiction|].
    now rewrite app_nil_r.
  - rewrite IH, app_nil_r.
    now destruct (existsb (String.eqb k) ts).
Qed.

(** The dictionary of lines 50-52 is the partition of the matched peaks by
    label, the labels in the order of their first occurrence. *)
Lemma peak_dict_partition (rows : list annotation_row) :
  peak_dict_of (map peak_type rows) (map peak rows) =
  map (fun t => (t, peaks_of_type rows t)) (first_seen (map peak_type rows)).
Proof.
  unfold peak_dict_of. rewrite combine_maps.
  induction rows as [|r rows IH] using rev_ind; [reflexivity|].
  rewrite !map_app, fold_left_app, IH. cbn [map fold_left fst snd].
  rewrite first_seen_snoc, dict_append_map by apply first_seen_NoDup.
  destruct (contains (first_seen (map peak_type rows)) (peak_type r)) eqn:E.
  - apply map_ext. intros t. now rewrite peaks_of_type_snoc.
  - apply contains_false_iff in E. rewrite map_app. cbn [map]. f_equal.
    + apply map_ext_in. intros t Ht. rewrite peaks_of_type_snoc.
      destruct (String.eqb_spec (peak_type r) t) as [<-|_];
        [contradiction | now rewrite app_nil_r].
    + rewrite peaks_of_type_snoc, String.eqb_refl.
      rewrite peaks_of_type_unseen; [reflexivity|].
      now rewrite <- first_seen_In.
Qed.

Lemma peaks_of_type_incl (rows : list annotation_row) (t : string) :
  incl (peaks_of_type rows t) (map peak rows).
Proof.
  unfold peaks_of_type. intros p Hp.
  apply in_map_iff in Hp as [r [<- Hr]].
  apply filter_In in Hr as [Hr _]. now apply in_map.
Qed.

Lemma readable_incl (adata : AnnData) (use_raw : pyval) (ps qs : list string) :
  readable adata use_raw qs -> incl ps qs -> readable adata use_raw ps.
Proof.
  intros (names & m & Hread & Hq) Hincl. exists names, m.
  split; [assumption|]. intros p Hp. auto.
Qed.

(** A run of derivations none of which is skipped or raises. *)
Lemma derive_all_computes (adata : AnnData) (use_raw : pyval)
      (cols : list (string * list string)) :
  (forall n p, In (n, p) cols ->
               ~ In n (obs_columns adata) /\
               exists v, averaged adata use_raw p = Ok v) ->
  NoDup (map fst cols) ->
  forall st, exists st',
    derive_all adata use_raw cols st = (st', Ok tt) /\
    attr_names st' = attr_names st ++ map fst cols /\
    tmp_names st' = tmp_names st ++ map fst cols /\
    warnings st' = warnings st /\
    (forall other, ~ In other (map fst cols) ->
                   df_get (x st') other = df_get (x st) other) /\
    (NoDup (columns (x st)) -> NoDup (columns (x st'))) /\
    (forall n p, In (n, p) cols ->
                 exists v, averaged adata use_raw p = Ok v /\
                           df_get (x st') n = Some v) /\
    ((forall n, In n (map fst cols) -> ~ In n (columns (x st))) ->
     columns (x st') = columns (x st) ++ map fst cols).
Proof.
  induction cols as [|[n p] cols IH]; intros Hall Hnd st.
  - exists st. simpl. rewrite !app_nil_r.
    repeat split; auto. contradiction.
  - destruct (Hall n p (or_introl eq_refl)) as [Hobs [v Hv]].
    inversion Hnd as [|? ? Hfresh Hnd']; subst.
    destruct (IH (fun n' p' H => Hall n' p' (or_intror H)) Hnd'
                 (derived st n p v))
      as (st' & Hrun & Hattr & Htmp & Hwarn & Hother & Hdup & Hval & Hcols).
    exists st'. rewrite derive_all_cons.
    apply contains_false_iff in Hobs. rewrite Hobs, Hv.
    split; [exact Hrun|].
    split; [rewrite Hattr; simpl; now rewrite <- app_assoc|].
    split; [rewrite Htmp; simpl; now rewrite <- app_assoc|].
    split; [exact Hwarn|].
    split; [|split; [|split]].
    + intros other Hnot. simpl in Hnot.
      rewrite Hother by tauto. simpl.
      apply df_get_set_neq. intros ->. tauto.
    + intros Hx. apply Hdup. simpl. now apply NoDup_columns_df_set.
    + intros n' p' [Heq | Hin].
      * injection Heq as <- <-. exists v. split; [assumption|].
        rewrite Hother by assumption. simpl. apply df_get_set_eq.
      * now apply Hval.
    + intros Hnew. rewrite Hcols.
      * simpl. rewrite columns_df_set.
        assert (Hn : contains (columns (x st)) n = false)
          by (apply contains_false_iff, Hnew; now left).
        rewrite Hn. now rewrite <- app_assoc.
      * intros m Hm. simpl. rewrite In_columns_df_set.
        intros [-> | Hin]; [contradiction|].
        apply (Hnew m); [now right | assumption].
Qed.

(** C2, as the code has it. Under the mode "peak_type", a gene key with
    matched peaks, none of whose derived names "<key> (<label> peaks)" is
    already a column of [obs], the matrix read having the matched peaks
    (which is so whenever [use_raw] is falsy): the key is processed without
    raising; the matched peaks are partitioned by label; one derived name
    per distinct label, in the order in which the labels are first met, is
    appended to the display names and to the new names; these names are
    pairwise distinct, no other column is touched, and for each label the
    derived table then has exactly one column of its name, holding the
    row-wise mean over the peaks of that label. Where the table had none
    of these names, they are added as its last columns, in that order. *)
Theorem peak_type_mode_mean_columns
        (adata : AnnData) (average use_raw : pyval) (key : string)
        (table : list annotation_row) (st : state) :
  average = PyStr "peak_type" ->
  is_direct adata key = false ->
  uns_atac adata = Some (Some table) ->
  matched adata table key <> [] ->
  (forall t, In t (map peak_type (matched adata table key)) ->
             ~ In (key ++ " (" ++ t ++ " peaks)")%string (obs_columns adata)) ->
  (truthy use_raw = true ->
   readable adata use_raw (matched_peaks adata table key)) ->
  NoDup (columns (x st)) ->
  forall types names,
    types = first_seen (map peak_type (matched adata table key)) ->
    names = map (fun t => (key ++ " (" ++ t ++ " peaks)")%string) types ->
    NoDup types /\
    (forall t, In t types <-> In t (map peak_type (matched adata table key))) /\
    NoDup names /\
    exists st',
      process_key adata average use_raw key st = (st', Ok tt) /\
      attr_names st' = attr_names st ++ names /\
      tmp_names st' = tmp_names st ++ names /\
      warnings st' = warnings st /\
      (forall other, ~ In other names ->
                     df_get (x st') other = df_get (x st) other) /\
      (forall t, In t types ->
                 mean_column adata use_raw (x st')
                             (key ++ " (" ++ t ++ " peaks)")%string
                             (peaks_of_type (matched adata table key) t)) /\
      ((forall n, In n names -> ~ In n (columns (x st))) ->
       columns (x st') = columns (x st) ++ names).
Proof.
  intros Hav Hdirect Huns Hm Hobs Hraw Hnd types names -> ->.
  set (rows := matched adata table key) in *.
  set (types := first_seen (map peak_type rows)).
  set (cols := map (fun t => (peak_type_name key t, peaks_of_type rows t)) types).
  assert (Hnames : map fst cols = map (peak_type_name key) types)
    by (unfold cols; rewrite map_map; reflexivity).
  assert (Htypes : NoDup types) by apply first_seen_NoDup.
  assert (Hdistinct : NoDup (map (peak_type_name key) types)).
  { apply (NoDup_map_NoDup_ForallPairs); [|assumption].
    intros t1 t2 _ _. apply peak_type_name_inj. }
  assert (Hall : forall n p, In (n, p) cols ->
                   ~ In n (obs_columns adata) /\
                   exists v, averaged adata use_raw p = Ok v).
  { intros n p Hin. unfold cols in Hin.
    apply in_map_iff in Hin as (t & Heq & Ht). injection Heq as <- <-.
    split; [apply Hobs; now apply first_seen_In|].
    apply averaged_of_readable.
    - intros Htruthy. eapply readable_incl; [now apply Hraw|].
      apply peaks_of_type_incl.
    - intros p Hp. apply (matched_peaks_incl adata table key).
      now apply peaks_of_type_incl in Hp. }
  split; [assumption|]. split; [apply first_seen_In|]. split; [assumption|].
  rewrite <- Hnames in Hdistinct.
  destruct (derive_all_computes adata use_raw cols Hall Hdistinct st)
    as (st' & Hrun & Hattr & Htmp & Hwarn & Hother & Hdup & Hval & Hcols).
  exists st'.
  change (map (fun t => (key ++ " (" ++ t ++ " peaks)")%string) types)
    with (map (peak_type_name key) types).
  rewrite <- Hnames.
  split.
  { rewrite (process_key_gene adata average use_raw key table st Hdirect Huns
               (matched_linked _ _ _ Hm)).
    fold rows. rewrite (aggregate_peak_type _ _ _ _ _ _ Hm Hav).
    rewrite (derive_all_map adata use_raw
               (fun tp => (peak_type_name key (fst tp), snd tp))).
    rewrite peak_dict_partition, map_map. exact Hrun. }
  repeat (split; [assumption|]).
  split; [|assumption].
  intros t Ht.
  destruct (Hval (peak_type_name key t) (peaks_of_type rows t))
    as (v & Hv & Hget).
  { unfold cols. apply in_map_iff. now exists t. }
  eapply mean_column_intro; eauto.
Qed.

Lemma peak_type_mode_mean_columns_witness :
  NoDup ["promoter"; "distal"] /\
  (forall t,
     In t ["promoter"; "distal"] <->
     In t (map peak_type (matched Sample.adata_raw Sample.annotation "G1"))) /\
  NoDup ["G1 (promoter peaks)"; "G1 (distal peaks)"] /\
  exists st',
    process_key Sample.adata_raw (PyStr "peak_type") (PyBool true) "G1"
                init_state = (st', Ok tt) /\
    attr_names st' = ["G1 (promoter peaks)"; "G1 (distal peaks)"] /\
    tmp_names st' = ["G1 (promoter peaks)"; "G1 (distal peaks)"] /\
    warnings st' = [] /\
    (forall other,
       ~ In other ["G1 (promoter peaks)"; "G1 (distal peaks)"] ->
       df_get (x st') other = df_get (x init_state) other) /\
    (forall t,
       In t ["promoter"; "distal"] ->
       mean_column Sample.adata_raw (PyBool true) (x st')
                   ("G1" ++ " (" ++ t ++ " peaks)")%string
                   (peaks_of_type
                      (matched Sample.adata_raw Sample.annotation "G1") t)) /\
    ((forall n, In n ["G1 (promoter peaks)"; "G1 (distal peaks)"] ->
                ~ In n (columns (x init_state))) ->
     columns (x st') = ["G1 (promoter peaks)"; "G1 (distal peaks)"]).
Proof.
  apply (peak_type_mode_mean_columns Sample.adata_raw (PyStr "peak_type")
           (PyBool true) "G1" Sample.annotation init_state).
  - reflexivity.
  - reflexivity.
  - reflexivity.
  - simpl. discriminate.
  - simpl. intros t [<- | [<- | []]]; simpl; intros [H | []]; discriminate.
  - intros _. exists ["chr1:200-300"; "chr1:1-100"; "chr2:5-6"],
                     [[10; 20; 1]; [30; 50; 1]]%Q.
    split; [reflexivity|]. simpl.
    intros p [<- | [<- | []]]; simpl; auto.
  - simpl. constructor.
  - reflexivity.
  - reflexivity.
Defined.

(** The second example of the specification: two labels, two columns. *)
Example peak_type_mode_example :
  snd (_average_peaks Sample.adata (PyStr "peak_type") (PyBool false) ["G1"]) =
  Ok ([("G1 (promoter peaks)", [2; 4]%Q); ("G1 (distal peaks)", [6; 8]%Q)],
      ["G1 (promoter peaks)"; "G1 (distal peaks)"],
      ["G1 (promoter peaks)"; "G1 (distal peaks)"]).
Proof. reflexivity. Qed.

(** When [obs] already has a column named like the aggregate of one label,
    a gene with two labels yields one derived column only. *)
Lemma obs_column_blocks_peak_type_column :
  is_direct Sample.adata_obs_promoter "G1" = false /\
  first_seen (map peak_type
                  (matched Sample.adata_obs_promoter Sample.annotation "G1")) =
    ["promoter"; "distal"] /\
  snd (_average_peaks Sample.adata_obs_promoter (PyStr "peak_type")
                      (PyBool false) ["G1"]) =
    Ok ([("G1 (distal peaks)", [6; 8]%Q)],
        ["G1 (promoter peaks)"; "G1 (distal peaks)"],
        ["G1 (promoter peaks)"; "G1 (distal peaks)"]).
Proof. repeat split. Qed.

(** * Further properties of the resolver *)


(** ** The loop only appends *)





(** ** When the call returns *)








(** ** Modes that do not aggregate, over a whole call *)






(** ** The names of a call under "total" and "all" *)

Lemma process_key_total_names
      (adata : AnnData) (average use_raw : pyval)
      (table : list annotation_row) (key : string) (st st' : state) :
  average = PyStr "total" \/ average = PyStr "all" ->
  uns_atac adata = Some (Some table) ->
  process_key adata average use_raw key st = (st', Ok tt) ->
  attr_names st' = attr_names st ++ total_display adata table key /\
  tmp_names st' = tmp_names st ++ total_new adata table key /\
  warnings st' = warnings st ++ total_warnings adata table key.
Proof.
  intros Hav Huns. unfold total_display, total_new, total_warnings.
  destruct (is_direct adata key) eqn:Hd.
  { rewrite process_key_direct by assumption. intros [= <-]. simpl.
    now rewrite !app_nil_r. }
  destruct (linked table key) as [|l0 ls] eqn:Hl.
  { rewrite (process_key_unlinked _ _ _ _ table) by assumption.
    discriminate. }
  rewrite (process_key_gene _ _ _ _ table)
    by (try assumption; rewrite Hl; discriminate).
  unfold matched_peaks.
  destruct (matched adata table key) as [|r rows] eqn:Hm.
  { rewrite aggregate_no_peaks. intros [= <-]. simpl.
    now rewrite !app_nil_r. }
  rewrite aggregate_total, derive_step by (assumption || discriminate).
  cbn [map].
  destruct (contains (obs_columns adata) (all_peaks_name key)).
  { intros [= <-]. simpl. now rewrite !app_nil_r. }
  destruct (averaged adata use_raw (peak r :: map peak rows));
    [|discriminate].
  intros [= <-]. simpl. now rewrite !app_nil_r.
Qed.

Lemma total_display_or_warning
      (adata : AnnData) (table : list annotation_row) (keys : list string) :
  (List.length (flat_map (total_display adata table) keys) +
   List.length (flat_map (total_warnings adata table) keys))%nat
  = List.length keys.
Proof.
  induction keys as [|key rest IH]; [reflexivity|].
  cbn [flat_map]. rewrite !length_app. cbn [List.length].
  rewrite <- IH. unfold total_display, total_warnings.
  destruct (is_direct adata key); [simpl; lia|].
  destruct (matched_peaks adata table key); simpl; lia.
Qed.

(** X4. Under the mode "total" or "all", with the peak annotation present,
    a call that returns has processed the keys one by one, in order: a key
    matched directly is displayed as it is; a gene with matched peaks is
    displayed, and marked new, as "<key> (all peaks)"; a gene without
    matched peaks is left out with one warning. So every key gives exactly
    one display name or exactly one warning. *)
Theorem total_mode_names_follow_keys
        (adata : AnnData) (average use_raw : pyval)
        (table : list annotation_row) (keys : list string) (st : state)
        (df : DataFrame) (display_names new_names : list string) :
  average = PyStr "total" \/ average = PyStr "all" ->
  uns_atac adata = Some (Some table) ->
  _average_peaks adata average use_raw keys =
    (st, Ok (df, display_names, new_names)) ->
  display_names = flat_map (total_display adata table) keys /\
  new_names = flat_map (total_new adata table) keys /\
  warnings st = flat_map (total_warnings adata table) keys /\
  (List.length display_names + List.length (warnings st))%nat
  = List.length keys.
Proof.
  intros Hav Huns Hcall.
  apply average_peaks_ok in Hcall as (Hrun & _ & -> & ->).
  assert (G : forall keys st0 st1,
             run_keys adata average use_raw keys st0 = (st1, Ok tt) ->
             attr_names st1 =
               attr_names st0 ++ flat_map (total_display adata table) keys /\
             tmp_names st1 =
               tmp_names st0 ++ flat_map (total_new adata table) keys /\
             warnings st1 =
               warnings st0 ++ flat_map (total_warnings adata table) keys).
  { clear Hrun keys st. induction keys as [|key rest IH]; intros st0 st1.
    - intros [= <-]. simpl. now rewrite !app_nil_r.
    - rewrite run_keys_cons.
      destruct (process_key adata average use_raw key st0)
        as [st' [[]|e]] eqn:Hk; [|discriminate].
      intros Hrest.
      destruct (process_key_total_names _ _ _ _ _ _ _ Hav Huns Hk)
        as (Ha & Ht & Hw).
      destruct (IH _ _ Hrest) as (Ha' & Ht' & Hw').
      cbn [flat_map]. rewrite Ha', Ht', Hw', Ha, Ht, Hw.
      now rewrite !app_assoc. }
  destruct (G _ _ _ Hrun) as (Ha & Ht & Hw). simpl in Ha, Ht, Hw.
  repeat split; try assumption.
  rewrite Ha, Hw. apply total_display_or_warning.
Qed.

Lemma total_mode_names_follow_keys_witness :
  ["G1 (all peaks)"; "batch"; "G1 (all peaks)"; "c1"] =
    flat_map (total_display Sample.adata Sample.annotation)
             ["G1"; "batch"; "G2"; "G1"; "c1"] /\
  ["G1 (all peaks)"; "G1 (all peaks)"] =
    flat_map (total_new Sample.adata Sample.annotation)
             ["G1"; "batch"; "G2"; "G1"; "c1"] /\
  ["Peaks for G2 are not found."] =
    flat_map (total_warnings Sample.adata Sample.annotation)
             ["G1"; "batch"; "G2"; "G1"; "c1"] /\
  (4 + 1)%nat = 5%nat.
Proof.
  apply (total_mode_names_follow_keys Sample.adata (PyStr "all") PyNone
           Sample.annotation ["G1"; "batch"; "G2"; "G1"; "c1"]
           (fst (_average_peaks Sample.adata (PyStr "all") PyNone
                                ["G1"; "batch"; "G2"; "G1"; "c1"]))
           [("G1 (all peaks)", [4; 6]%Q)]).
  - right. reflexivity.
  - reflexivity.
  - reflexivity.
Defined.

(** ** The order of the columns *)

Lemma filter_snoc {A} (f : A -> bool) (l : list A) (a : A) :
  filter f (l ++ [a]) = filter f l ++ (if f a then [a] else []).
Proof. rewrite filter_app. simpl. now destruct (f a). Qed.

(** X5. In a call that returns, under any mode, the columns of the derived
    table are the new names that are not [obs] columns, each once, in the
    order in which they were first requested. *)
Theorem columns_in_order_of_first_request
        (adata : AnnData) (average use_raw : pyval) (keys : list string)
        (st : state) (df : DataFrame) (display_names new_names : list string) :
  _average_peaks adata average use_raw keys =
    (st, Ok (df, display_names, new_names)) ->
  columns df =
  first_seen (filter (fun n => negb (contains (obs_columns adata) n))
                     new_names).
Proof.
  intros Hcall.
  apply average_peaks_ok in Hcall as (Hrun & -> & _ & ->).
  revert Hrun.
  apply (run_keys_between adata average use_raw
           (fun s => columns (x s) =
                     first_seen
                       (filter (fun n => negb (contains (obs_columns adata) n))
                               (tmp_names s)))); auto.
  - intros s n Hobs Hs. simpl. rewrite filter_snoc.
    apply contains_true_iff in Hobs. rewrite Hobs. simpl.
    now rewrite app_nil_r.
  - intros s n p v Hobs _ Hs. simpl. rewrite filter_snoc.
    apply contains_false_iff in Hobs. rewrite Hobs. simpl.
    rewrite first_seen_snoc, columns_df_set, Hs. reflexivity.
Qed.

(** ** Keys matched directly, over a whole call *)

Lemma run_keys_direct
      (adata : AnnData) (average use_raw : pyval) (keys : list string) :
  (forall k, In k keys ->
             In k (obs_names adata) \/ In k (obs_columns adata)) ->
  forall st,
    run_keys adata average use_raw keys st = (listed st keys, Ok tt).
Proof.
  induction keys as [|key rest IH]; intros Hall st.
  - unfold listed. rewrite app_nil_r. now destruct st.
  - rewrite run_keys_cons, process_key_direct
      by (apply is_direct_true_iff, Hall; now left).
    rewrite IH by (intros k Hk; apply Hall; now right).
    unfold listed. simpl. now rewrite <- app_assoc.
Qed.

(** X6. When every key is an observation id or an [obs] column, the call
    returns the keys unchanged as display names, with an empty derived
    table, no new name and no warning, whatever the mode and [use_raw],
    and whether or not the matrix has a peak annotation or a raw matrix. *)
Theorem direct_keys_returned_unchanged
        (adata : AnnData) (average use_raw : pyval) (keys : list string) :
  (forall k, In k keys ->
             In k (obs_names adata) \/ In k (obs_columns adata)) ->
  _average_peaks adata average use_raw keys =
  (mkState [] keys [] [] [], Ok ([], keys, [])).
Proof.
  intros Hall. rewrite average_peaks_run, run_keys_direct by assumption.
  reflexivity.
Qed.

Lemma direct_keys_returned_unchanged_witness :
  _average_peaks Sample.adata_no_atac (PyStr "peak_type") (PyBool true)
                 ["c2"; "batch"; "c2"] =
  (mkState [] ["c2"; "batch"; "c2"] [] [] [],
   Ok ([], ["c2"; "batch"; "c2"], [])).
Proof.
  apply direct_keys_returned_unchanged.
  simpl. intros k [<- | [<- | [<- | []]]]; simpl; auto.
Defined.

Lemma columns_in_order_of_first_request_witness :
  columns [("G1 (promoter peaks)", [2; 4]%Q); ("G1 (distal peaks)", [6; 8]%Q)] =
  first_seen
    (filter (fun n => negb (contains (obs_columns Sample.adata) n))
            ["G1 (promoter peaks)"; "G1 (distal peaks)";
             "G1 (promoter peaks)"; "G1 (distal peaks)"]).
Proof.
  apply (columns_in_order_of_first_request Sample.adata (PyStr "peak_type")
           PyNone ["G1"; "c1"; "G1"]
           (fst (_average_peaks Sample.adata (PyStr "peak_type") PyNone
                                ["G1"; "c1"; "G1"]))
           _
           ["G1 (promoter peaks)"; "G1 (distal peaks)"; "c1";
            "G1 (promoter peaks)"; "G1 (distal peaks)"]).
  reflexivity.
Defined.

(** ** Display names under the aggregating modes *)

Lemma derive_all_names (adata : AnnData) (use_raw : pyval)
      (cols : list (string * list string)) :
  forall st st',
    derive_all adata use_raw cols st = (st', Ok tt) ->
    attr_names st' = attr_names st ++ map fst cols /\
    tmp_names st' = tmp_names st ++ map fst cols.
Proof.
  induction cols as [|[n p] cols IH]; intros st st'.
  - intros [= <-]. simpl. now rewrite !app_nil_r.
  - rewrite derive_all_cons.
    destruct (contains (obs_columns adata) n).
    + intros H. destruct (IH _ _ H) as [Ha Ht]. rewrite Ha, Ht. simpl.
      now rewrite <- !app_assoc.
    + destruct (averaged adata use_raw p); [|discriminate].
      intros H. destruct (IH _ _ H) as [Ha Ht]. rewrite Ha, Ht. simpl.
      now rewrite <- !app_assoc.
Qed.

Lemma process_key_aggregating_names
      (adata : AnnData) (average use_raw : pyval) (key : string)
      (st st' : state) :
  aggregating average = true ->
  process_key adata average use_raw key st = (st', Ok tt) ->
  exists d t,
    attr_names st' = attr_names st ++ d /\
    tmp_names st' = tmp_names st ++ t /\
    forall n, In n d ->
              (In n (obs_names adata) \/ In n (obs_columns adata)) \/ In n t.
Proof.
  intros Hav Hrun.
  destruct (is_direct adata key) eqn:Hd.
  { rewrite process_key_direct in Hrun by assumption.
    injection Hrun as <-. exists [key], []. simpl.
    rewrite app_nil_r. repeat split.
    intros n [<- | []]. left. now apply is_direct_true_iff. }
  destruct (uns_atac adata) as [[table|]|] eqn:Huns.
  2,3: rewrite process_key_unannotated in Hrun by auto; discriminate.
  destruct (linked table key) as [|l0 ls] eqn:Hl.
  { rewrite (process_key_unlinked _ _ _ _ table) in Hrun by assumption.
    discriminate. }
  rewrite (process_key_gene _ _ _ _ table) in Hrun
    by (try assumption; rewrite Hl; discriminate).
  destruct (matched adata table key) as [|r rows] eqn:Hm.
  { rewrite aggregate_no_peaks in Hrun. injection Hrun as <-.
    exists [], []. simpl. rewrite !app_nil_r. repeat split. contradiction. }
  assert (Hne : r :: rows <> []) by discriminate.
  unfold aggregating in Hav.
  destruct (py_eq_str average "total" || py_eq_str average "all") eqn:E1.
  { rewrite aggregate_total, derive_all_one in Hrun
      by (try assumption; apply orb_true_iff in E1 as [E | E];
          apply py_eq_str_true in E; auto).
    apply derive_all_names in Hrun as [Ha Ht].
    eexists _, _. repeat split; [exact Ha | exact Ht | auto]. }
  simpl in Hav.
  rewrite aggregate_peak_type in Hrun by auto using py_eq_str_true.
  rewrite (derive_all_map adata use_raw
             (fun tp => (peak_type_name key (fst tp), snd tp))) in Hrun.
  apply derive_all_names in Hrun as [Ha Ht].
  eexists _, _. repeat split; [exact Ha | exact Ht | auto].
Qed.

Lemma run_keys_aggregating_names
      (adata : AnnData) (average use_raw : pyval) (keys : list string) :
  aggregating average = true ->
  forall st st',
    run_keys adata average use_raw keys st = (st', Ok tt) ->
    (forall n, In n (attr_names st) ->
               (In n (obs_names adata) \/ In n (obs_columns adata)) \/
               In n (tmp_names st)) ->
    forall n, In n (attr_names st') ->
              (In n (obs_names adata) \/ In n (obs_columns adata)) \/
              In n (tmp_names st').
Proof.
  intros Hav. induction keys as [|key rest IH]; intros st st'.
  - intros [= <-]. auto.
  - rewrite run_keys_cons.
    destruct (process_key adata average use_raw key st)
      as [st1 [[]|e]] eqn:Hk; [|discriminate].
    intros Hrest Hst. apply (IH _ _ Hrest).
    destruct (process_key_aggregating_names _ _ _ _ _ _ Hav Hk)
      as (d & t & Ha & Ht & Hd).
    intros n. rewrite Ha, Ht, !in_app_iff.
    intros [Hn | Hn]; [destruct (Hst n Hn) | destruct (Hd n Hn)]; tauto.
Qed.

Lemma display_names_shown
      (adata : AnnData) (average use_raw : pyval) (keys : list string)
      (st : state) :
  aggregating average = true ->
  run_keys adata average use_raw keys init_state = (st, Ok tt) ->
  forall n, In n (attr_names st) ->
            In n (obs_names adata) \/ In n (obs_columns adata) \/
            In n (columns (x st)).
Proof.
  intros Hav Hrun n Hn.
  pose proof (run_keys_bookkeeping _ _ _ _ _ Hrun) as (_ & _ & _ & _ & H5).
  destruct (run_keys_aggregating_names _ _ _ _ Hav _ _ Hrun
              ltac:(simpl; contradiction) n Hn) as [[H | H] | H]; auto.
  destruct (in_dec string_dec n (obs_columns adata)) as [Ho | Ho]; auto.
  right. right. apply H5. auto.
Qed.

Lemma aggregating_true (average : pyval) :
  average = PyStr "total" \/ average = PyStr "all" \/
  average = PyStr "peak_type" ->
  aggregating average = true.
Proof. intros [-> | [-> | ->]]; reflexivity. Qed.

(** X7. Under the modes "total", "all" and "peak_type", every display name
    of a call that returns is an observation id, an [obs] column or a
    column of the derived table: the result can be shown from the derived
    table and [obs] alone. *)
Theorem aggregated_display_names_are_in_the_result
        (adata : AnnData) (average use_raw : pyval) (keys : list string)
        (st : state) (df : DataFrame) (display_names new_names : list string) :
  average = PyStr "total" \/ average = PyStr "all" \/
  average = PyStr "peak_type" ->
  _average_peaks adata average use_raw keys =
    (st, Ok (df, display_names, new_names)) ->
  forall name,
    In name display_names ->
    In name (obs_names adata) \/ In name (obs_columns adata) \/
    In name (columns df).
Proof.
  intros Hav Hcall.
  apply average_peaks_ok in Hcall as (Hrun & -> & -> & _).
  eapply display_names_shown; eauto using aggregating_true.
Qed.

Lemma aggregated_display_names_are_in_the_result_witness :
  In "G1 (distal peaks)" (obs_names Sample.adata) \/
  In "G1 (distal peaks)" (obs_columns Sample.adata) \/
  In "G1 (distal peaks)"
     (columns [("G1 (promoter peaks)", [2; 4]%Q);
               ("G1 (distal peaks)", [6; 8]%Q)]).
Proof.
  apply (aggregated_display_names_are_in_the_result Sample.adata
           (PyStr "peak_type") PyNone ["c1"; "G1"; "G2"; "batch"]
           (fst (_average_peaks Sample.adata (PyStr "peak_type") PyNone
                                ["c1"; "G1"; "G2"; "batch"]))
           _ ["c1"; "G1 (promoter peaks)"; "G1 (distal peaks)"; "batch"]
           ["G1 (promoter peaks)"; "G1 (distal peaks)"]).
  - right. right. reflexivity.
  - reflexivity.
  - simpl. auto.
Defined.

(** * The dispatchers *)




(** X9. Under the modes "total", "all" and "peak_type", when [embedding]
    (with a colour) or [dotplot] reaches scanpy, it does so once, on a
    container built on the derived table with the [obs] of the matrix,
    and returns [None]; every name it asks scanpy to show is an
    observation id, an [obs] column or a variable of that container.
    [embedding] does not forward [use_raw]; [dotplot] does. *)
Theorem dispatchers_show_names_of_the_container
        (data : pydata) (adata : AnnData) (basis : string) (arg : pykeys)
        (keys : list string) (groupby : option string)
        (average use_raw : pyval) (kwargs : kwargs_t) :
  atac_modality data = inr adata ->
  average = PyStr "total" \/ average = PyStr "all" \/
  average = PyStr "peak_type" ->
  keys_of arg = Some keys ->
  (forall call ret,
     snd (embedding data basis arg average use_raw kwargs)
     = Dispatch_plotted call ret ->
     exists table names,
       call = sc_pl_embedding (Transient table adata true) basis (Some names)
                              None kwargs /\
       ret = ReturnsNone /\
       forall n, In n names ->
                 In n (obs_names adata) \/ In n (obs_columns adata) \/
                 In n (columns table)) /\
  (forall call ret,
     snd (dotplot data arg groupby average use_raw kwargs)
     = Dispatch_plotted call ret ->
     exists table names,
       call = sc_pl_dotplot (Transient table adata false) names groupby
                            use_raw kwargs /\
       ret = ReturnsNone /\
       forall n, In n names ->
                 In n (obs_names adata) \/ In n (obs_columns adata) \/
                 In n (columns table)).
Proof.
  intros Hdata Hav Hkeys. apply aggregating_true in Hav.
  unfold embedding, dotplot. rewrite Hdata.
  assert (G : forall st df d n,
             _average_peaks adata average use_raw keys = (st, Ok (df, d, n)) ->
             forall name, In name d ->
               In name (obs_names adata) \/ In name (obs_columns adata) \/
               In name (columns df)).
  { intros st df d n Hcall.
    apply average_peaks_ok in Hcall as (Hrun & -> & -> & _).
    now apply (display_names_shown adata average use_raw keys). }
  destruct arg as [|s|items|]; try discriminate;
    injection Hkeys as <-;
    match goal with
    | |- context [_average_peaks adata average use_raw ?k] =>
        destruct (_average_peaks adata average use_raw k)
          as [st [[[df d] n]|e]] eqn:Hcall
    end; cbn [snd]; split; intros call ret [= <- <-];
    exists df, d; repeat split; eapply G; eauto.
Qed.

Lemma dispatchers_show_names_of_the_container_witness :
  (forall call ret,
     snd (embedding Sample.mdata "umap" (KeysStr "G1") (PyStr "peak_type")
                    (PyBool false) [("size", PyInt 3)])
     = Dispatch_plotted call ret ->
     exists table names,
       call = sc_pl_embedding (Transient table Sample.adata true) "umap"
                              (Some names) None [("size", PyInt 3)] /\
       ret = ReturnsNone /\
       forall n, In n names ->
                 In n (obs_names Sample.adata) \/
                 In n (obs_columns Sample.adata) \/
                 In n (columns table)) /\
  (forall call ret,
     snd (dotplot Sample.mdata (KeysStr "G1") (Some "batch")
                  (PyStr "peak_type") (PyBool false) [("size", PyInt 3)])
     = Dispatch_plotted call ret ->
     exists table names,
       call = sc_pl_dotplot (Transient table Sample.adata false) names
                            (Some "batch") (PyBool false)
                            [("size", PyInt 3)] /\
       ret = ReturnsNone /\
       forall n, In n names ->
                 In n (obs_names Sample.adata) \/
                 In n (obs_columns Sample.adata) \/
                 In n (columns table)).
Proof.
  apply (dispatchers_show_names_of_the_container Sample.mdata Sample.adata
           "umap" (KeysStr "G1") ["G1"] (Some "batch") (PyStr "peak_type")
           (PyBool false) [("size", PyInt 3)]).
  - reflexivity.
  - right. right. reflexivity.
  - reflexivity.
Defined.



Lemma average_peaks_falsy
      (adata : AnnData) (average use_raw : pyval) (keys : list string) :
  truthy use_raw = false ->
  _average_peaks adata average use_raw keys =
  _average_peaks adata average (PyBool false) keys.
Proof.
  intros H. rewrite !average_peaks_run.
  assert (Hself : with_raw adata (raw adata) = adata) by now destruct adata.
  rewrite <- Hself at 1. now rewrite run_keys_falsy.
Qed.

(** X11. [dotplot] called with a falsy [use_raw], as with its default
    [None], emits the same warnings, raises the same exception or hands
    scanpy the same container and names as with [use_raw=False]; the only
    difference is the [use_raw] it forwards to scanpy. *)
Theorem dotplot_falsy_use_raw
        (data : pydata) (var_names : pykeys) (groupby : option string)
        (average use_raw : pyval) (kwargs : kwargs_t) :
  truthy use_raw = false ->
  dotplot data var_names groupby average use_raw kwargs =
  forwarding use_raw
    (dotplot data var_names groupby average (PyBool false) kwargs).
Proof.
  intros H. unfold dotplot.
  destruct (atac_modality data) as [e|adata]; [reflexivity|].
  destruct var_names as [|s|items|]; try reflexivity;
    rewrite (average_peaks_falsy adata average use_raw) by assumption;
    match goal with
    | |- context [_average_peaks adata average (PyBool false) ?k] =>
        destruct (_average_peaks adata average (PyBool false) k)
          as [st [[[df d] n]|e]]
    end; reflexivity.
Qed.

Lemma dotplot_falsy_use_raw_witness :
  dotplot Sample.mdata (KeysIterable ["G1"; "G2"]) (Some "batch")
          (PyStr "total") PyNone [] =
  forwarding PyNone
    (dotplot Sample.mdata (KeysIterable ["G1"; "G2"]) (Some "batch")
             (PyStr "total") (PyBool false) []).
Proof. apply dotplot_falsy_use_raw. reflexivity. Defined.

(** * TSS enrichment *)

Lemma subset_obs_known (data : TssData) (index : list string) :
  incl index (tss_obs_names data) ->
  subset_obs data index =
  inr (mkTssData index (tss_var_names data)
         (map (fun o => match index_of o (tss_obs_names data) with
                        | Some i => nth i (tss_X data) []
                        | None => []
                        end) index)
         (tss_var data)).
Proof.
  intros Hincl. unfold subset_obs.
  rewrite filter_nothing; [reflexivity|].
  intros o Ho. apply negb_false_iff, contains_true_iff. auto.
Qed.





(** X13. When [data.var] has no column 'TSS_position', [tss_enrichment]
    without grouping, or with a first group naming observations of the
    matrix, raises a [KeyError] before anything is drawn, and [plt.show]
    is not called; but with grouping and no group at all, it raises
    nothing, draws nothing and calls [plt.show]. *)
Theorem tss_enrichment_without_positions
        (np_sqrt : Q -> Q) (data : TssData) (ax : option nat) :
  dict_get (tss_var data) "TSS_position" = None ->
  tss_enrichment np_sqrt data None ax =
    ([], Some (KeyError_var "TSS_position")) /\
  (forall name index rest,
     incl index (tss_obs_names data) ->
     tss_enrichment np_sqrt data (Some ((name, index) :: rest)) ax =
       ([], Some (KeyError_var "TSS_position"))) /\
  tss_enrichment np_sqrt data (Some []) ax = ([plt_show], None).
Proof.
  intros Hpos. unfold tss_enrichment. repeat split.
  - unfold _tss_enrichment_single. now rewrite Hpos.
  - intros name index rest Hknown. cbn [plot_groups].
    rewrite subset_obs_known by assumption.
    unfold _tss_enrichment_single. cbn [tss_var]. now rewrite Hpos.
Qed.

Lemma tss_enrichment_without_positions_witness :
  tss_enrichment (fun q => q) Sample.tss_data_no_position None None =
    ([], Some (KeyError_var "TSS_position")) /\
  (forall name index rest,
     incl index (tss_obs_names Sample.tss_data_no_position) ->
     tss_enrichment (fun q => q) Sample.tss_data_no_position
                    (Some ((name, index) :: rest)) None =
       ([], Some (KeyError_var "TSS_position"))) /\
  tss_enrichment (fun q => q) Sample.tss_data_no_position (Some []) None =
    ([plt_show], None).
Proof.
  apply (tss_enrichment_without_positions (fun q => q)
           Sample.tss_data_no_position None).
  reflexivity.
Defined.

Lemma rows_by_name (names : list string) (rows : list (list Q)) :
  NoDup names ->
  List.length rows = List.length names ->
  map (fun o => match index_of o names with
                | Some i => nth i rows []
                | None => []
                end) names = rows.
Proof.
  intros Hnd. revert rows.
  induction Hnd as [|h t Hnotin Hnd IH]; intros [|r rows] Hlen;
    try discriminate; [reflexivity|].
  cbn [map index_of]. rewrite String.eqb_refl. cbn [nth]. f_equal.
  transitivity (map (fun o => match index_of o t with
                              | Some i => nth i rows []
                              | None => []
                              end) t);
    [|apply IH; simpl in Hlen; lia].
  apply map_ext_in. intros o Ho.
  destruct (String.eqb_spec o h) as [->|_]; [contradiction|].
  now destruct (index_of o t).
Qed.

(** X14. For a matrix with distinct observation ids and one row per
    observation, [tss_enrichment] without grouping does what it does with
    a single group holding every observation, in the order of the matrix:
    the same calls to matplotlib, the same exception if any. *)
Theorem tss_enrichment_ungrouped_is_one_group
        (np_sqrt : Q -> Q) (data : TssData) (ax : option nat)
        (name : string) :
  NoDup (tss_obs_names data) ->
  List.length (tss_X data) = List.length (tss_obs_names data) ->
  tss_enrichment np_sqrt data None ax =
  tss_enrichment np_sqrt data (Some [(name, tss_obs_names data)]) ax.
Proof.
  intros Hnd Hlen. unfold tss_enrichment. cbn [plot_groups].
  rewrite subset_obs_known by apply incl_refl.
  rewrite (rows_by_name _ _ Hnd Hlen).
  unfold _tss_enrichment_single. cbn [tss_var tss_var_names tss_X].
  destruct (dict_get (tss_var data) "TSS_position"); [|reflexivity].
  cbn [app]. reflexivity.
Qed.

Lemma tss_enrichment_ungrouped_is_one_group_witness :
  tss_enrichment (fun q => q) Sample.tss_data None None =
  tss_enrichment (fun q => q) Sample.tss_data
                 (Some [("all", ["c1"; "c2"; "c3"])]) None.
Proof.
  apply (tss_enrichment_ungrouped_is_one_group (fun q => q) Sample.tss_data
           None "all").
  - simpl. repeat constructor; simpl; intuition discriminate.
  - reflexivity.
Defined.
